(** * Virtual Sensor Manager (VSM.cpp): a shallow embedding and its properties

    The program samples two simulated sensors through a [SensorManager] and
    writes each sample to a CSV file and to the console.  The embedding keeps
    the program's shape: a closed class hierarchy becomes an inductive type
    with dispatch by [match], the function-local [static] objects and the two
    output streams become fields of an explicit [World], and every function
    that touches them lives in a small state monad over that world. *)

From Stdlib Require Import Rbase Rfunctions Lra.
From Stdlib Require Import List String Ascii Bool Arith ZArith Lia.
From Stdlib Require Import PrimFloat FloatOps SpecFloat FloatAxioms Uint63 DecimalString.
Import ListNotations.

Set Warnings "-inexact-float".

Local Open Scope string_scope.
Local Open Scope list_scope.

(** ** What the program takes from the C++ standard library

    [double] is IEEE-754 binary64, which is what Rocq's primitive [float] is.
    The random engine, the distribution and the stream formatting of a
    [double] are the standard library's, not this repository's: the program
    is embedded over any implementation of them. *)

Definition double : Type := float.

Class Platform : Type := {
  (** the state of a [std::default_random_engine] (implementation-defined) *)
  Engine : Type;
  (** the state of a default-constructed engine: [static std::default_random_engine gen;] *)
  default_engine : Engine;
  (** [std::uniform_real_distribution<double> dist(a, b); dist(gen)]:
      the value drawn and the engine's next state *)
  uniform_real_distribution : double -> double -> Engine -> double * Engine;
  (** [os << std::fixed << std::setprecision(2) << x] *)
  fixed2 : double -> string
}.

(** ** Strings and streams *)

(** The character ['\n']. *)
Definition nl_char : ascii := ascii_of_nat 10.
Definition nl : string := String nl_char EmptyString.
Definition comma_char : ascii := ","%char.

(** Splitting at a separator character: [n] separators give [n + 1] pieces.
    Used only to read the streams back in the statements about lines and
    fields. *)
Fixpoint split (sep : ascii) (s : string) : list string :=
  match s with
  | EmptyString => [EmptyString]
  | String c rest =>
      if Ascii.eqb c sep then EmptyString :: split sep rest
      else match split sep rest with
           | [] => [String c EmptyString]
           | piece :: pieces => String c piece :: pieces
           end
  end.

(** [free c s]: the character [c] does not occur in [s]. *)
Fixpoint free (c : ascii) (s : string) : bool :=
  match s with
  | EmptyString => true
  | String x rest => negb (Ascii.eqb x c) && free c rest
  end.

(** A string holding neither a comma nor a newline. *)
Definition plain (s : string) : bool := free comma_char s && free nl_char s.

(** The strings of a list, one after the other. *)
Definition flatten (l : list string) : string := fold_right append EmptyString l.

(** ** Sensors (lines 10-37) *)

(** The two concrete classes derived from [Sensor].  Neither has a data
    member, so an object is determined by its dynamic type. *)
Inductive Sensor : Type :=
  | TemperatureSensor
  | PressureSensor.

Definition Sensor_eq_dec (a b : Sensor) : {a = b} + {a <> b}.
Proof. decide equality. Defined.

(** [struct tm] as far as [getTimestamp] reads it. *)
Record tm : Type := { tm_hour : nat; tm_min : nat; tm_sec : nat }.

(** ** State passing

    Code that reads or writes the statics, the clock or a stream is a function
    from the world before to a result and the world after. *)

Definition State (W A : Type) : Type := W -> A * W.

Definition ret {W A : Type} (a : A) : State W A := fun w => (a, w).

Definition bind {W A B : Type} (m : State W A) (k : A -> State W B) : State W B :=
  fun w => let (a, w') := m w in k a w'.

Notation "x <- m ;; k" := (bind m (fun x => k))
  (at level 61, m at next level, right associativity).
Notation "m ;;; k" := (bind m (fun _ => k))
  (at level 61, right associativity).

Section Program.

Context {P : Platform}.

(** ** The world the program runs in

    [temp_gen] and [pres_gen] are the two function-local [static] engines of
    [TemperatureSensor::readValue] and [PressureSensor::readValue]; a static
    local is constructed the first time control passes through its
    declaration, so each is [None] until the first call.  The two [static]
    distribution objects hold only their bounds and are written as the
    literal arguments of [uniform_real_distribution].

    [clock] is the environment: what
    [localtime(system_clock::to_time_t(system_clock::now()))] gives at the
    k-th time the program asks.  [clock_reads] counts how often it asked.

    [logfile] and [cout] are what has been written to [sensor_data.csv] and
    to the console so far.

    [reads] is a ghost field, not program data: the history of [readValue]
    calls, each with the object's dynamic type and the value returned.  *)
Record World : Type := {
  temp_gen : option Engine;
  pres_gen : option Engine;
  clock : nat -> tm;
  clock_reads : nat;
  logfile : string;
  cout : string;
  reads : list (Sensor * double)
}.

Definition set_temp_gen (g : option Engine) (w : World) : World :=
  {| temp_gen := g; pres_gen := pres_gen w; clock := clock w;
     clock_reads := clock_reads w; logfile := logfile w; cout := cout w;
     reads := reads w |}.

Definition set_pres_gen (g : option Engine) (w : World) : World :=
  {| temp_gen := temp_gen w; pres_gen := g; clock := clock w;
     clock_reads := clock_reads w; logfile := logfile w; cout := cout w;
     reads := reads w |}.

Definition set_clock_reads (n : nat) (w : World) : World :=
  {| temp_gen := temp_gen w; pres_gen := pres_gen w; clock := clock w;
     clock_reads := n; logfile := logfile w; cout := cout w;
     reads := reads w |}.

Definition set_logfile (s : string) (w : World) : World :=
  {| temp_gen := temp_gen w; pres_gen := pres_gen w; clock := clock w;
     clock_reads := clock_reads w; logfile := s; cout := cout w;
     reads := reads w |}.

Definition set_cout (s : string) (w : World) : World :=
  {| temp_gen := temp_gen w; pres_gen := pres_gen w; clock := clock w;
     clock_reads := clock_reads w; logfile := logfile w; cout := s;
     reads := reads w |}.

Definition set_reads (r : list (Sensor * double)) (w : World) : World :=
  {| temp_gen := temp_gen w; pres_gen := pres_gen w; clock := clock w;
     clock_reads := clock_reads w; logfile := logfile w; cout := cout w;
     reads := r |}.

(** The program's monad: state passing over [World]. *)
Definition M (A : Type) : Type := State World A.

(** [logfile << s] and [std::cout << s]. *)
Definition logfile_put (s : string) : M unit :=
  fun w => (tt, set_logfile (logfile w ++ s) w).

Definition cout_put (s : string) : M unit :=
  fun w => (tt, set_cout (cout w ++ s) w).

(** A function-local [static] engine: the stored state, or the
    default-constructed one on the first pass. *)
Definition static_engine (slot : option Engine) : Engine :=
  match slot with
  | Some gen => gen
  | None => default_engine
  end.

(** [TemperatureSensor::readValue] (lines 21-25). *)
Definition TemperatureSensor_readValue : M double :=
  fun w =>
    let gen := static_engine (temp_gen w) in
    let (v, gen') := uniform_real_distribution 20.0%float 30.0%float gen in
    (v, set_temp_gen (Some gen') w).

(** [PressureSensor::readValue] (lines 31-35). *)
Definition PressureSensor_readValue : M double :=
  fun w =>
    let gen := static_engine (pres_gen w) in
    let (v, gen') := uniform_real_distribution 0.9%float 1.1%float gen in
    (v, set_pres_gen (Some gen') w).

(** The ghost record of one [readValue] call. *)
Definition note_read (s : Sensor) (v : double) : M unit :=
  fun w => (tt, set_reads (reads w ++ [(s, v)]) w).

(** The virtual call [s->readValue()]: dispatch on the dynamic type. *)
Definition readValue (s : Sensor) : M double :=
  v <- match s with
       | TemperatureSensor => TemperatureSensor_readValue
       | PressureSensor => PressureSensor_readValue
       end ;;
  note_read s v ;;;
  ret v.

(** The virtual call [s->getType()] (lines 26 and 36). *)
Definition getType (s : Sensor) : string :=
  match s with
  | TemperatureSensor => "Temperature"
  | PressureSensor => "Pressure"
  end.

(** The static engine a sensor's [readValue] draws from. *)
Definition gen_of (s : Sensor) (w : World) : option Engine :=
  match s with
  | TemperatureSensor => temp_gen w
  | PressureSensor => pres_gen w
  end.

(** ** SensorManager (lines 40-60) *)

(** [std::vector<std::unique_ptr<Sensor>> sensors]: the manager owns its
    sensors, in order.  Every pointer holds a sensor: the only caller passes
    the results of [std::make_unique]. *)
Record SensorManager : Type := { sensors : list Sensor }.

(** A default-constructed manager: [SensorManager manager;]. *)
Definition SensorManager_new : SensorManager := {| sensors := [] |}.

(** [addSensor]: [sensors.push_back(std::move(sensor))]. *)
Definition addSensor (m : SensorManager) (sensor : Sensor) : SensorManager :=
  {| sensors := sensors m ++ [sensor] |}.

(** The range-for of [readAll], with [values] as built so far. *)
Fixpoint readAll_loop (ss : list Sensor) (values : list double) : M (list double) :=
  match ss with
  | [] => ret values
  | s :: rest =>
      v <- readValue s ;;
      readAll_loop rest (values ++ [v])
  end.

(** [readAll] (lines 47-52). *)
Definition readAll (m : SensorManager) : M (list double) :=
  readAll_loop (sensors m) [].

(** The range-for of [getSensorTypes], with [types] as built so far. *)
Fixpoint getSensorTypes_loop (ss : list Sensor) (types : list string) : list string :=
  match ss with
  | [] => types
  | s :: rest => getSensorTypes_loop rest (types ++ [getType s])
  end.

(** [getSensorTypes] (lines 54-59). *)
Definition getSensorTypes (m : SensorManager) : list string :=
  getSensorTypes_loop (sensors m) [].

(** ** getTimestamp (lines 63-70) *)

(** The decimal digit [d] as a character. *)
Definition digit_char (d : nat) : ascii := ascii_of_nat (48 + d mod 10).

(** A [%H], [%M] or [%S] conversion of [strftime]: two decimal digits.
    The fields [localtime] fills are within 0..23, 0..59 and 0..60. *)
Definition two_digits (n : nat) : string :=
  String (digit_char (n / 10)) (String (digit_char n) EmptyString).

(** [strftime(buffer, 32, "%H:%M:%S", ptm)]. *)
Definition strftime_HMS (t : tm) : string :=
  two_digits (tm_hour t) ++ ":" ++ two_digits (tm_min t) ++ ":" ++ two_digits (tm_sec t).

(** [getTimestamp]: ask the clock once, format the local time of day. *)
Definition getTimestamp : M string :=
  fun w =>
    let now := clock w (clock_reads w) in
    (strftime_HMS now, set_clock_reads (S (clock_reads w)) w).

(** ** main (lines 73-111) *)

Definition totalSamples : nat := 20.

(** [double dt = 1.0]. *)
Definition dt : double := 1.0%float.

(** The CSV header, line 79. *)
Definition csv_header : string :=
  "Time(s),Timestamp,Temperature(C),Pressure(bar)" ++ nl.

(** [for (double v : values) logfile << "," << v;] on a stream left in
    [std::fixed], precision 2 by line 91. *)
Fixpoint logfile_values (values : list double) : M unit :=
  match values with
  | [] => ret tt
  | v :: rest =>
      logfile_put "," ;;;
      logfile_put (fixed2 v) ;;;
      logfile_values rest
  end.

(** [for (size_t j = 0; j < types.size(); ++j) std::cout << types[j] << ": "
    << std::fixed << std::setprecision(2) << values[j] << "  ";]
    [todo] is [types.size() - j], the iterations left.  [operator[]] past
    the end is undefined in C++; here it reads a default, which the
    properties below show is never reached. *)
Fixpoint console_loop (todo j : nat) (types : list string) (values : list double)
  : M unit :=
  match todo with
  | O => ret tt
  | S todo' =>
      cout_put (nth j types EmptyString) ;;;
      cout_put ": " ;;;
      cout_put (fixed2 (nth j values 0%float)) ;;;
      cout_put "  " ;;;
      console_loop todo' (S j) types values
  end.

(** [std::this_thread::sleep_for]: time passes, which the program can only
    see through the clock. *)
Definition sleep_for (seconds : nat) : M unit := ret tt.

(** One pass of the body of the sampling loop (lines 88-105), at elapsed
    time [time]. *)
Definition sample (manager : SensorManager) (time : double) : M unit :=
  values <- readAll manager ;;
  let types := getSensorTypes manager in
  logfile_put (fixed2 time) ;;;
  logfile_put "," ;;;
  ts <- getTimestamp ;;
  logfile_put ts ;;;
  logfile_values values ;;;
  logfile_put nl ;;;
  cout_put "[" ;;;
  ts' <- getTimestamp ;;
  cout_put ts' ;;;
  cout_put "] " ;;;
  console_loop (List.length types) 0 types values ;;;
  cout_put nl ;;;
  sleep_for 1.

(** [for (int i = 0; i < totalSamples; ++i) { ...; time += dt; }] with
    [todo] the iterations left, [totalSamples - i]. *)
Fixpoint sampling_loop (manager : SensorManager) (todo : nat) (time : double)
  : M unit :=
  match todo with
  | O => ret tt
  | S todo' =>
      sample manager time ;;;
      sampling_loop manager todo' (PrimFloat.add time dt)
  end.

(** The manager [main] builds on lines 74-76. *)
Definition main_manager : SensorManager :=
  addSensor (addSensor SensorManager_new TemperatureSensor) PressureSensor.

Definition cout_banner : string :=
  "Logging sensor data to sensor_data.csv ..." ++ nl.

(** The closing message of line 109, byte for byte as the source file has it. *)
Definition cout_done : string :=
  "Data logging complete. File saved as sensor_data.csv "
  ++ String (ascii_of_nat 195) (String (ascii_of_nat 162)
     (String (ascii_of_nat 197) (String (ascii_of_nat 147)
     (String (ascii_of_nat 226) (String (ascii_of_nat 128)
     (String (ascii_of_nat 166) EmptyString))))))
  ++ nl.

(** [std::ofstream logfile("sensor_data.csv")]: the file is created or
    truncated.  A stream that failed to open is not modelled. *)
Definition logfile_open : M unit :=
  fun w => (tt, set_logfile EmptyString w).

(** [logfile.close()]: nothing more is written; the content stays. *)
Definition logfile_close : M unit := ret tt.

(** [main], run with [samples] for [totalSamples]; the result is the exit
    code. *)
Definition main_with (samples : nat) : M Z :=
  let manager := main_manager in
  logfile_open ;;;
  logfile_put csv_header ;;;
  cout_put cout_banner ;;;
  sampling_loop manager samples 0.0%float ;;;
  logfile_close ;;;
  cout_put cout_done ;;;
  ret 0%Z.

Definition main : M Z := main_with totalSamples.

(** The world a process starts in: no static constructed, nothing read or
    written, and the clock the environment provides. *)
Definition start (env_clock : nat -> tm) : World :=
  {| temp_gen := None; pres_gen := None; clock := env_clock;
     clock_reads := 0; logfile := EmptyString; cout := EmptyString;
     reads := [] |}.

End Program.

(** ** One implementation of the platform: GNU libstdc++ on a binary64 target

    [std::default_random_engine] is [std::minstd_rand0] there, a Lehmer
    generator with multiplier 16807 modulo 2^31 - 1, default seed 1.
    [uniform_real_distribution] draws [generate_canonical<double, 53>], which
    takes two engine outputs, and maps it affinely onto the interval.  The
    properties below hold for every platform; this one runs, and serves as
    the concrete case wherever a property has a premise. *)
Module Libstdcxx.

Definition modulus : Z := 2147483647.

(** One step of [minstd_rand0]: the engine's output is its new state. *)
Definition minstd_rand0_next (x : Z) : Z := (16807 * x) mod modulus.

Definition to_double (z : Z) : double := PrimFloat.of_uint63 (Uint63.of_Z z).

(** [urng.max() - urng.min() + 1] for [minstd_rand0], whose outputs range
    over 1 .. 2^31 - 2: 2^31 - 2 values. *)
Definition range : double := to_double (modulus - 1).

(** [nextafter(1.0, 0.0)]. *)
Definition below_one : double := PrimFloat.next_down 1.0%float.

(** [std::generate_canonical<double, 53>(gen)]: two draws, the first
    weighing 1 and the second [range]. *)
Definition generate_canonical (gen : Z) : double * Z :=
  let g1 := minstd_rand0_next gen in
  let g2 := minstd_rand0_next g1 in
  let sum := PrimFloat.add (to_double (g1 - 1))
                           (PrimFloat.mul (to_double (g2 - 1)) range) in
  let tmp := PrimFloat.mul range range in
  let r := PrimFloat.div sum tmp in
  (if PrimFloat.leb 1.0%float r then below_one else r, g2).

(** [dist(gen)] for [uniform_real_distribution<double> dist(a, b)]. *)
Definition uniform_real (a b : double) (gen : Z) : double * Z :=
  let (u, gen') := generate_canonical gen in
  (PrimFloat.add (PrimFloat.mul u (PrimFloat.sub b a)) a, gen').

(** The states a [minstd_rand0] engine can hold: 1 .. 2^31 - 2.  The
    default-constructed engine holds 1, seeding maps 0 to 1, and a step
    multiplies by 16807 modulo the prime 2^31 - 1. *)
Definition valid_engine (g : Z) : Prop := (1 <= g < modulus)%Z.

(** [generate_canonical] after its first draw [g1]: the canonical value. *)
Definition canonical_of (g1 : Z) : double :=
  let g2 := minstd_rand0_next g1 in
  let sum := PrimFloat.add (to_double (g1 - 1))
                           (PrimFloat.mul (to_double (g2 - 1)) range) in
  let tmp := PrimFloat.mul range range in
  let r := PrimFloat.div sum tmp in
  if PrimFloat.leb 1.0%float r then below_one else r.

(** The map of [uniform_real_distribution] from a canonical value [u]. *)
Definition affine (a b u : double) : double :=
  PrimFloat.add (PrimFloat.mul u (PrimFloat.sub b a)) a.

(** [a <= v && v < b], as the program would compare them. *)
Definition within (a b v : double) : bool :=
  PrimFloat.leb a v && PrimFloat.ltb v b.

(** Decimal digits of a natural number. *)
Definition decimal (n : N) : string :=
  DecimalString.NilZero.string_of_uint (N.to_uint n).

(** The hundredths nearest to [m * 2^e], ties to even. *)
Definition hundredths (m : positive) (e : Z) : N :=
  let num := (100 * Z.pos m)%Z in
  if (0 <=? e)%Z then Z.to_N (num * 2 ^ e)
  else
    let den := (2 ^ (- e))%Z in
    let q := (num / den)%Z in
    let r := (num mod den)%Z in
    let up := orb (den <? 2 * r)%Z (andb (2 * r =? den)%Z (Z.odd q)) in
    Z.to_N (if up then q + 1 else q).

Definition sign_string (negative : bool) : string :=
  if negative then "-" else EmptyString.

Definition two_decimals (h : N) : string :=
  decimal (h / 100) ++ "."
  ++ decimal ((h mod 100) / 10) ++ decimal (h mod 10).

(** [os << std::fixed << std::setprecision(2) << x] in the "C" locale. *)
Definition fixed2_double (x : double) : string :=
  match Prim2SF x with
  | S754_zero s => sign_string s ++ "0.00"
  | S754_infinity s => sign_string s ++ "inf"
  | S754_nan => "nan"
  | S754_finite s m e => sign_string s ++ two_decimals (hundredths m e)
  end.

Definition platform : Platform :=
  {| Engine := Z;
     default_engine := 1%Z;
     uniform_real_distribution := uniform_real;
     fixed2 := fixed2_double |}.

(** Each of the two static engines holds a state [minstd_rand0] can hold, or
    is still to be constructed. *)
Definition valid_world (w : @World platform) : Prop :=
  forall s : Sensor, valid_engine (@static_engine platform (gen_of s w)).

(** A clock that stands at 12:00:00 plus [k] seconds at the [k]-th reading. *)
Definition noon (k : nat) : tm :=
  {| tm_hour := 12; tm_min := (k / 60) mod 60; tm_sec := k mod 60 |}.

End Libstdcxx.

(** ** Vocabulary of the properties *)

Section Observations.

Context {P : Platform}.

(** The manager after [addSensor] was called with each of [added], in order. *)
Definition manager_of (added : list Sensor) : SensorManager :=
  fold_left addSensor added SensorManager_new.

(** The public operations of [SensorManager], as a client calls them. *)
Inductive Call : Type :=
  | CallAddSensor (sensor : Sensor)
  | CallReadAll
  | CallGetSensorTypes.

(** One call on a manager: [addSensor] changes the manager, [readAll] the
    world; [getSensorTypes] is [const] and pure.  Results are dropped. *)
Definition exec (c : Call) (st : SensorManager * World) : SensorManager * World :=
  let (m, w) := st in
  match c with
  | CallAddSensor sensor => (addSensor m sensor, w)
  | CallReadAll => (m, snd (readAll m w))
  | CallGetSensorTypes => let _ := getSensorTypes m in (m, w)
  end.

Definition run (calls : list Call) (st : SensorManager * World)
  : SensorManager * World :=
  fold_left (fun st c => exec c st) calls st.

(** The sensors a sequence of calls adds, in order. *)
Fixpoint added_by (calls : list Call) : list Sensor :=
  match calls with
  | [] => []
  | CallAddSensor sensor :: rest => sensor :: added_by rest
  | _ :: rest => added_by rest
  end.

(** Calling [readValue] once on each sensor of a list, first to last. *)
Fixpoint read_each (ss : list Sensor) : M (list double) :=
  match ss with
  | [] => ret []
  | s :: rest =>
      v <- readValue s ;;
      vs <- read_each rest ;;
      ret (v :: vs)
  end.

(** The bounds each class passes to its distribution. *)
Definition bounds (s : Sensor) : double * double :=
  match s with
  | TemperatureSensor => (20.0%float, 30.0%float)
  | PressureSensor => (0.9%float, 1.1%float)
  end.

(** What one [readValue] on [s] draws in world [w]: value and next engine state. *)
Definition draw (s : Sensor) (w : World) : double * Engine :=
  uniform_real_distribution (fst (bounds s)) (snd (bounds s))
                            (static_engine (gen_of s w)).

(** The transient sample of one pass of the loop: elapsed time, the
    timestamp written to the file, the one written to the console, and the
    readings in the manager's order. *)
Record Sample : Type := {
  at_time : double;
  file_stamp : string;
  console_stamp : string;
  readings : list double
}.

(** The samples [todo] passes of the loop take, starting at [time] in world
    [w]: each pass reads all sensors, then asks the clock twice. *)
Fixpoint samples_from (m : SensorManager) (todo : nat) (time : double) (w : World)
  : list Sample :=
  match todo with
  | O => []
  | S todo' =>
      let (values, w1) := readAll m w in
      let (ts, w2) := getTimestamp w1 in
      let (ts', w3) := getTimestamp w2 in
      {| at_time := time; file_stamp := ts; console_stamp := ts';
         readings := values |}
      :: samples_from m todo' (PrimFloat.add time dt) w3
  end.

(** The loop's [time] after [i] passes that started at [time]: [time += dt],
    [i] times. *)
Definition elapsed_from (time : double) (i : nat) : double :=
  Nat.iter i (fun t => PrimFloat.add t dt) time.

(** The elapsed time at pass [i] of [main], which starts at [0.0]. *)
Definition elapsed (i : nat) : double := elapsed_from 0.0%float i.

(** The sample of the pass that starts in world [w] at elapsed time [time]:
    the clock is asked twice, after the sensors were read. *)
Definition sample_at (m : SensorManager) (time : double) (w : World) : Sample :=
  {| at_time := time;
     file_stamp := strftime_HMS (clock w (clock_reads w));
     console_stamp := strftime_HMS (clock w (S (clock_reads w)));
     readings := fst (readAll m w) |}.

(** A data row of the CSV file, without its newline. *)
Definition csv_line (r : Sample) : string :=
  fixed2 (at_time r) ++ "," ++ file_stamp r
  ++ flatten (map (fun v => ("," ++ fixed2 v)%string) (readings r)).

(** One sensor's part of a console line. *)
Definition console_entry (label : string) (v : double) : string :=
  label ++ ": " ++ fixed2 v ++ "  ".

(** A console line, without its newline. *)
Definition console_line (stamp : string) (labels : list string)
  (values : list double) : string :=
  "[" ++ stamp ++ "] "
  ++ flatten (map (fun lv => console_entry (fst lv) (snd lv)) (combine labels values)).

(** Two worlds whose static engines are in the same state. *)
Definition same_gens (w1 w2 : World) : Prop :=
  temp_gen w1 = temp_gen w2 /\ pres_gen w1 = pres_gen w2.

(** Two worlds that also agree on the clock and on how often it was asked:
    they may differ in what was written and in the history of calls. *)
Definition same_inputs (w1 w2 : World) : Prop :=
  same_gens w1 w2 /\ clock w1 = clock w2 /\ clock_reads w1 = clock_reads w2.

(** The sensors [n] passes of the loop read, in the order they are read. *)
Definition read_order (m : SensorManager) (n : nat) : list Sensor :=
  List.concat (repeat (sensors m) n).

(** A data row of the CSV file and a console line as written, each with its
    newline. *)
Definition csv_row (r : Sample) : string := csv_line r ++ nl.

Definition console_row (labels : list string) (r : Sample) : string :=
  console_line (console_stamp r) labels (readings r) ++ nl.


End Observations.

(** ** Concrete inputs on the libstdc++ platform *)

Module Demo.

Import Libstdcxx.

(** A client's calls: add a temperature sensor, read, add a pressure sensor,
    list the types, read again. *)
Definition session : list Call :=
  [CallAddSensor TemperatureSensor; CallReadAll;
   CallAddSensor PressureSensor; CallGetSensorTypes; CallReadAll].

(** Two worlds in which the temperature engine is in state 42 and everything
    else differs: the pressure engine, the clock and what was written. *)
Definition world_a : @World platform :=
  @Build_World platform (Some 42%Z) None noon 0 EmptyString EmptyString [].

Definition world_b : @World platform :=
  @Build_World platform (Some 42%Z) (Some 7%Z) (fun k => noon (k + 3600)) 5
    "x" "y" [(PressureSensor, 1.0%float)].

(** The manager and the world the session ends in, from a fresh process. *)
Definition after_session : SensorManager * @World platform :=
  run session (SensorManager_new, start noon).

(** Whether a reading lies in the half-open interval of its class. *)
Definition in_bounds (sv : Sensor * double) : bool :=
  let (lo, hi) := @bounds (fst sv) in
  PrimFloat.leb lo (snd sv) && PrimFloat.ltb (snd sv) hi.

End Demo.

(** ** Vocabulary of the further properties *)

Section Draws.

Context {P : Platform}.

(** The engine state one draw of class [s] leaves. *)
Definition step (s : Sensor) (gen : Engine) : Engine :=
  snd (uniform_real_distribution (fst (bounds s)) (snd (bounds s)) gen).

(** The values of [k] successive draws of class [s] from engine state [gen]. *)
Fixpoint draws (s : Sensor) (k : nat) (gen : Engine) : list double :=
  match k with
  | O => []
  | S k' =>
      fst (uniform_real_distribution (fst (bounds s)) (snd (bounds s)) gen)
      :: draws s k' (step s gen)
  end.

(** The engine state after [k] draws of class [s]. *)
Definition engine_after (s : Sensor) (k : nat) (gen : Engine) : Engine :=
  Nat.iter k (step s) gen.

Definition Sensor_eqb (a b : Sensor) : bool :=
  if Sensor_eq_dec a b then true else false.

(** Of the values [readAll] returned for the sensors [ss], those read from
    sensors of class [s], in order. *)
Definition readings_of (s : Sensor) (ss : list Sensor) (values : list double)
  : list double :=
  map snd (filter (fun sv => Sensor_eqb (fst sv) s) (combine ss values)).

(** The ranges [localtime] fills the fields of a [struct tm] with. *)
Definition valid_tm (t : tm) : Prop :=
  tm_hour t < 24 /\ tm_min t < 60 /\ tm_sec t <= 60.

End Draws.


(** The whole number [i] as a [double]. *)
Definition whole_seconds (i : nat) : double :=
  PrimFloat.of_uint63 (Uint63.of_Z (Z.of_nat i)).


(** The closing message of [main] without its newline. *)
Definition closing_message : string :=
  "Data logging complete. File saved as sensor_data.csv "
  ++ String (ascii_of_nat 195) (String (ascii_of_nat 162)
     (String (ascii_of_nat 197) (String (ascii_of_nat 147)
     (String (ascii_of_nat 226) (String (ascii_of_nat 128)
     (String (ascii_of_nat 166) EmptyString)))))).

(** The decimal digit [d], 0 to 9, as a character. *)
Definition decimal_digit (d : nat) : ascii :=
  nth d ["0"; "1"; "2"; "3"; "4"; "5"; "6"; "7"; "8"; "9"]%char "?"%char.

(** A time of day written [HH:MM:SS]. *)
Definition HH_MM_SS (t : tm) : string :=
  string_of_list_ascii
    [decimal_digit (tm_hour t / 10); decimal_digit (tm_hour t mod 10); ":"%char;
     decimal_digit (tm_min t / 10); decimal_digit (tm_min t mod 10); ":"%char;
     decimal_digit (tm_sec t / 10); decimal_digit (tm_sec t mod 10)].

(** A console line as the specification words it: the timestamp in brackets,
    then per sensor the label, a colon, the formatted reading and two
    spaces, with nothing in between. *)
Definition worded_console_line (stamp : string) (entries : list (string * string))
  : string :=
  "[" ++ stamp ++ "]"
  ++ flatten (map (fun e => (fst e ++ ":" ++ snd e ++ "  ")%string) entries).

Section StreamVocabulary.

Context {P : Platform}.

(** The value the [k]-th [readValue] call of a run returned, by the history
    in the final world [w]. *)
Definition reading_at (w : World) (k : nat) : double :=
  snd (nth k (reads w) (TemperatureSensor, 0.0%float)).

End StreamVocabulary.


(** ** Values of binary64 numbers *)

(** The real number [m * 2^e]. *)
Definition F2R (m e : Z) : R := (IZR m * powerRZ 2 e)%R.

(** [x] is a positive normal binary64 number with exponent between [lo] and
    [hi], and [v] is its value. *)
Definition NP (lo hi : Z) (x : spec_float) (v : R) : Prop :=
  exists m e,
    x = S754_finite false m e
    /\ (2 ^ 52 <= Zpos m < 2 ^ 53)%Z
    /\ (lo <= e <= hi)%Z
    /\ v = F2R (Zpos m) e.

(** * Properties *)

Section Properties.

Context {P : Platform}.

(** ** The two range-for loops *)

Lemma getSensorTypes_loop_map (ss : list Sensor) (types : list string) :
  getSensorTypes_loop ss types = (types ++ map getType ss)%list.
Proof.
  revert types; induction ss as [|s rest IH]; intro types; simpl.
  - now rewrite app_nil_r.
  - rewrite IH, <- app_assoc. reflexivity.
Qed.

Lemma getSensorTypes_map (m : SensorManager) :
  getSensorTypes m = map getType (sensors m).
Proof. unfold getSensorTypes. now rewrite getSensorTypes_loop_map. Qed.

Lemma fold_addSensor_sensors (added : list Sensor) (m : SensorManager) :
  sensors (fold_left addSensor added m) = (sensors m ++ added)%list.
Proof.
  revert m; induction added as [|s rest IH]; intro m; simpl.
  - now rewrite app_nil_r.
  - rewrite IH. simpl. now rewrite <- app_assoc.
Qed.

Lemma manager_of_sensors (added : list Sensor) :
  sensors (manager_of added) = added.
Proof. unfold manager_of. now rewrite fold_addSensor_sensors. Qed.

Lemma readAll_loop_read_each (ss : list Sensor) (values : list double) (w : World) :
  readAll_loop ss values w
  = ((values ++ fst (read_each ss w))%list, snd (read_each ss w)).
Proof.
  revert values w; induction ss as [|s rest IH]; intros values w; simpl.
  - unfold ret. simpl. now rewrite app_nil_r.
  - unfold bind. destruct (readValue s w) as [v w1].
    rewrite IH. destruct (read_each rest w1) as [vs w2]. simpl.
    now rewrite <- app_assoc.
Qed.

Lemma readAll_read_each (m : SensorManager) (w : World) :
  readAll m w = read_each (sensors m) w.
Proof.
  unfold readAll. rewrite readAll_loop_read_each. simpl.
  now destruct (read_each (sensors m) w).
Qed.

Lemma read_each_cons (s : Sensor) (rest : list Sensor) (w : World) :
  read_each (s :: rest) w
  = (fst (readValue s w) :: fst (read_each rest (snd (readValue s w))),
     snd (read_each rest (snd (readValue s w)))).
Proof.
  simpl. unfold bind. destruct (readValue s w) as [v w1]. simpl.
  now destruct (read_each rest w1).
Qed.

Lemma read_each_length (ss : list Sensor) (w : World) :
  List.length (fst (read_each ss w)) = List.length ss.
Proof.
  revert w; induction ss as [|s rest IH]; intro w.
  - reflexivity.
  - rewrite read_each_cons. simpl. now rewrite IH.
Qed.

(** ** One call of readValue *)

Lemma readValue_unfold (s : Sensor) (w : World) :
  readValue s w
  = (fst (draw s w),
     set_reads (reads w ++ [(s, fst (draw s w))])
       (match s with
        | TemperatureSensor => set_temp_gen (Some (snd (draw s w))) w
        | PressureSensor => set_pres_gen (Some (snd (draw s w))) w
        end)).
Proof.
  destruct s; unfold readValue, bind, ret, note_read, draw,
    TemperatureSensor_readValue, PressureSensor_readValue; simpl;
    match goal with |- context [uniform_real_distribution ?a ?b ?g] =>
      destruct (uniform_real_distribution a b g) end; reflexivity.
Qed.

Lemma readValue_value (s : Sensor) (w : World) :
  fst (readValue s w) = fst (draw s w).
Proof. now rewrite readValue_unfold. Qed.

Lemma readValue_gen (s : Sensor) (w : World) :
  gen_of s (snd (readValue s w)) = Some (snd (draw s w)).
Proof. rewrite readValue_unfold. now destruct s. Qed.

Lemma readValue_other_gen (s s' : Sensor) (w : World) :
  s <> s' -> gen_of s' (snd (readValue s w)) = gen_of s' w.
Proof. intro H. rewrite readValue_unfold. destruct s, s'; congruence || reflexivity. Qed.

Lemma readValue_reads (s : Sensor) (w : World) :
  reads (snd (readValue s w)) = (reads w ++ [(s, fst (readValue s w))])%list.
Proof. rewrite readValue_unfold. now destruct s. Qed.

Lemma readValue_frame (s : Sensor) (w : World) :
  clock (snd (readValue s w)) = clock w
  /\ clock_reads (snd (readValue s w)) = clock_reads w
  /\ logfile (snd (readValue s w)) = logfile w
  /\ cout (snd (readValue s w)) = cout w.
Proof. rewrite readValue_unfold. now destruct s. Qed.

(** ** Reading every sensor *)

Lemma read_each_reads (ss : list Sensor) (w : World) :
  reads (snd (read_each ss w))
  = (reads w ++ combine ss (fst (read_each ss w)))%list.
Proof.
  revert w; induction ss as [|s rest IH]; intro w.
  - simpl. now rewrite app_nil_r.
  - rewrite read_each_cons. simpl. rewrite IH, readValue_reads.
    now rewrite <- app_assoc.
Qed.

Lemma read_each_nth (ss : list Sensor) (w : World) (i : nat) (s : Sensor) :
  nth_error ss i = Some s ->
  nth_error (fst (read_each ss w)) i
  = Some (fst (readValue s (snd (read_each (firstn i ss) w)))).
Proof.
  revert w i; induction ss as [|x rest IH]; intros w i H.
  - destruct i; discriminate.
  - destruct i as [|i].
    + injection H as ->. rewrite read_each_cons. reflexivity.
    + simpl in H. rewrite read_each_cons. simpl nth_error.
      rewrite (IH _ _ H). simpl firstn. rewrite read_each_cons. reflexivity.
Qed.

Lemma run_sensors (calls : list Call) (m : SensorManager) (w : World) :
  sensors (fst (run calls (m, w))) = (sensors m ++ added_by calls)%list.
Proof.
  revert m w; induction calls as [|c rest IH]; intros m w.
  - simpl. now rewrite app_nil_r.
  - unfold run in *. simpl fold_left. destruct c; simpl exec.
    + rewrite IH. simpl. now rewrite <- app_assoc.
    + apply IH.
    + apply IH.
Qed.

Lemma readAll_history (m : SensorManager) (w : World) :
  List.length (fst (readAll m w)) = List.length (sensors m)
  /\ reads (snd (readAll m w))
     = (reads w ++ combine (sensors m) (fst (readAll m w)))%list.
Proof.
  rewrite readAll_read_each. split.
  - apply read_each_length.
  - apply read_each_reads.
Qed.

(** C1: for a manager reached by adding N sensors, in any world, both
    [readAll()] and [getSensorTypes()] return a sequence of length exactly N. *)
Theorem readAll_getSensorTypes_length (added : list Sensor) (w : World) :
  List.length (fst (readAll (manager_of added) w)) = List.length added
  /\ List.length (getSensorTypes (manager_of added)) = List.length added.
Proof.
  split.
  - rewrite readAll_read_each, read_each_length. now rewrite manager_of_sensors.
  - rewrite getSensorTypes_map, length_map. now rewrite manager_of_sensors.
Qed.

(** C2: after any sequence of [addSensor], [readAll] and [getSensorTypes]
    calls on a fresh manager, the manager holds the sensors in the order they
    were added, and at every index [i] of an added sensor [s] the [i]-th label
    of [getSensorTypes()] is [s]'s label and the [i]-th value of [readAll()]
    is what [readValue] returned on [s] itself, called after the [i] sensors
    before it were read. *)
Theorem readAll_getSensorTypes_positional
  (calls : list Call) (w w1 : World) (m : SensorManager) (i : nat) (s : Sensor) :
  run calls (SensorManager_new, w) = (m, w1) ->
  nth_error (added_by calls) i = Some s ->
  sensors m = added_by calls
  /\ nth_error (getSensorTypes m) i = Some (getType s)
  /\ nth_error (fst (readAll m w1)) i
     = Some (fst (readValue s (snd (read_each (firstn i (sensors m)) w1)))).
Proof.
  intros Hrun Hi.
  assert (Hm : sensors m = added_by calls).
  { pose proof (run_sensors calls SensorManager_new w) as H.
    rewrite Hrun in H. exact H. }
  split; [exact Hm|]. rewrite <- Hm in Hi. split.
  - rewrite getSensorTypes_map. now apply map_nth_error.
  - rewrite readAll_read_each. now apply read_each_nth.
Qed.

(** C3: one call of [readAll()] is one [readValue()] on each registered
    sensor, first to last; it returns one value per sensor, and the history of
    [readValue] calls grows by exactly the registered sensors in order, each
    paired with the value returned at its position. *)
Theorem readAll_reads_each_once (m : SensorManager) (w : World) :
  readAll m w = read_each (sensors m) w
  /\ List.length (fst (readAll m w)) = List.length (sensors m)
  /\ reads (snd (readAll m w))
     = (reads w ++ combine (sensors m) (fst (readAll m w)))%list.
Proof.
  rewrite readAll_read_each. repeat split.
  - apply read_each_length.
  - apply read_each_reads.
Qed.

(** C4: [addSensor] always returns a manager; its sequence is the old one
    with the new sensor appended, every earlier position holds what it held,
    the new sensor is at the end, and a sensor of a class already present is
    added all the same. *)
Theorem addSensor_appends (m : SensorManager) (sensor : Sensor) :
  sensors (addSensor m sensor) = (sensors m ++ [sensor])%list
  /\ List.length (sensors (addSensor m sensor)) = S (List.length (sensors m))
  /\ firstn (List.length (sensors m)) (sensors (addSensor m sensor)) = sensors m
  /\ nth_error (sensors (addSensor m sensor)) (List.length (sensors m)) = Some sensor
  /\ count_occ Sensor_eq_dec (sensors (addSensor m sensor)) sensor
     = S (count_occ Sensor_eq_dec (sensors m) sensor).
Proof.
  simpl. repeat split.
  - rewrite length_app. simpl. lia.
  - rewrite firstn_app, Nat.sub_diag, firstn_all. simpl. apply app_nil_r.
  - rewrite nth_error_app2 by lia. now rewrite Nat.sub_diag.
  - rewrite count_occ_app. simpl. destruct (Sensor_eq_dec sensor sensor); [lia|congruence].
Qed.

(** C6: [getType()] is a constant of the class, "Temperature" or "Pressure",
    and a manager holding a [TemperatureSensor] then a [PressureSensor] lists
    exactly those two labels in that order. *)
Theorem getType_labels :
  getType TemperatureSensor = "Temperature"
  /\ getType PressureSensor = "Pressure"
  /\ getSensorTypes
       (addSensor (addSensor SensorManager_new TemperatureSensor) PressureSensor)
     = ["Temperature"; "Pressure"].
Proof. repeat split. Qed.

(** C9: [TemperatureSensor::readValue()] steps the temperature engine and
    leaves the pressure engine as it was, [PressureSensor::readValue()] the
    other way round, and neither result depends on the other class's engine. *)
Theorem readValue_generators_independent (w : World) (other : option Engine) :
  (temp_gen (snd (TemperatureSensor_readValue w))
     = Some (snd (uniform_real_distribution 20.0%float 30.0%float
                    (static_engine (temp_gen w))))
   /\ pres_gen (snd (TemperatureSensor_readValue w)) = pres_gen w
   /\ fst (TemperatureSensor_readValue (set_pres_gen other w))
      = fst (TemperatureSensor_readValue w))
  /\ (pres_gen (snd (PressureSensor_readValue w))
        = Some (snd (uniform_real_distribution 0.9%float 1.1%float
                       (static_engine (pres_gen w))))
      /\ temp_gen (snd (PressureSensor_readValue w)) = temp_gen w
      /\ fst (PressureSensor_readValue (set_temp_gen other w))
         = fst (PressureSensor_readValue w)).
Proof.
  unfold TemperatureSensor_readValue, PressureSensor_readValue. simpl.
  destruct (uniform_real_distribution 20%float 30%float (static_engine (temp_gen w))).
  destruct (uniform_real_distribution 0.9%float 1.1%float (static_engine (pres_gen w))).
  repeat split.
Qed.

(** ** Strings *)

Lemma append_nil_r (s : string) : (s ++ EmptyString)%string = s.
Proof. induction s as [|c s IH]; simpl; [reflexivity | now rewrite IH]. Qed.

Lemma append_assoc (a b c : string) :
  ((a ++ b) ++ c)%string = (a ++ (b ++ c))%string.
Proof. induction a as [|x a IH]; simpl; [reflexivity | now rewrite IH]. Qed.

Lemma flatten_app (l1 l2 : list string) :
  flatten (l1 ++ l2) = (flatten l1 ++ flatten l2)%string.
Proof.
  induction l1 as [|x l1 IH]; simpl; [reflexivity|].
  now rewrite IH, append_assoc.
Qed.

Lemma bind_unfold {A B : Type} (a : M A) (k : A -> M B) (w : World) :
  bind a k w = k (fst (a w)) (snd (a w)).
Proof. unfold bind. now destruct (a w). Qed.

(** ** The loops over the values of one sample *)

Ltac fields :=
  cbn [temp_gen pres_gen clock clock_reads logfile cout reads fst snd].

Lemma set_logfile_same (w : World) : set_logfile (logfile w) w = w.
Proof. now destruct w. Qed.

Lemma set_cout_same (w : World) : set_cout (cout w) w = w.
Proof. now destruct w. Qed.

Lemma logfile_values_unfold (values : list double) (w : World) :
  logfile_values values w
  = (tt, set_logfile
           (logfile w ++ flatten (map (fun v => ("," ++ fixed2 v)%string) values)) w).
Proof.
  revert w; induction values as [|v rest IH]; intro w; simpl.
  - unfold ret. now rewrite append_nil_r, set_logfile_same.
  - unfold bind, logfile_put. rewrite IH. simpl. unfold set_logfile. simpl.
    now rewrite !append_assoc.
Qed.

Lemma skipn_nth {A : Type} (l : list A) (j : nat) (d : A) :
  j < List.length l -> skipn j l = nth j l d :: skipn (S j) l.
Proof.
  revert j; induction l as [|x l IH]; intros j H; simpl in H.
  - lia.
  - destruct j as [|j]; [reflexivity|]. simpl. apply IH. lia.
Qed.

Lemma console_loop_unfold (todo j : nat) (types : list string)
  (values : list double) (w : World) :
  j + todo = List.length types ->
  List.length values = List.length types ->
  console_loop todo j types values w
  = (tt, set_cout
           (cout w ++ flatten (map (fun lv => console_entry (fst lv) (snd lv))
                                   (combine (skipn j types) (skipn j values)))) w).
Proof.
  revert j w; induction todo as [|todo IH]; intros j w Hj Hlen; simpl.
  - rewrite Nat.add_0_r in Hj. subst j. rewrite skipn_all. simpl.
    unfold ret. now rewrite append_nil_r, set_cout_same.
  - unfold bind, cout_put. rewrite IH by lia.
    rewrite (skipn_nth types j EmptyString) by lia.
    rewrite (skipn_nth values j 0%float) by lia.
    cbn [combine map flatten fold_right fst snd].
    unfold set_cout, console_entry. fields.
    now rewrite !append_assoc.
Qed.

Lemma read_each_frame (ss : list Sensor) (w : World) :
  clock (snd (read_each ss w)) = clock w
  /\ clock_reads (snd (read_each ss w)) = clock_reads w
  /\ logfile (snd (read_each ss w)) = logfile w
  /\ cout (snd (read_each ss w)) = cout w.
Proof.
  revert w; induction ss as [|s rest IH]; intro w.
  - repeat split.
  - rewrite read_each_cons. cbn [snd].
    destruct (IH (snd (readValue s w))) as (H1 & H2 & H3 & H4).
    destruct (readValue_frame s w) as (F1 & F2 & F3 & F4).
    repeat split; congruence.
Qed.

(** ** One pass of the sampling loop *)

(** The sample a pass takes in world [w] at elapsed time [time]. *)
Lemma sample_unfold (m : SensorManager) (time : double) (w : World) :
  let values := fst (readAll m w) in
  let w1 := snd (readAll m w) in
  let r := {| at_time := time;
              file_stamp := strftime_HMS (clock w1 (clock_reads w1));
              console_stamp := strftime_HMS (clock w1 (S (clock_reads w1)));
              readings := values |} in
  snd (sample m time w)
  = set_cout (cout w1 ++ console_line (console_stamp r) (getSensorTypes m) values ++ nl)
      (set_logfile (logfile w1 ++ csv_line r ++ nl)
         (set_clock_reads (S (S (clock_reads w1))) w1)).
Proof.
  intros values w1 r. subst r.
  assert (Hlen : List.length values = List.length (getSensorTypes m)).
  { subst values. rewrite readAll_read_each, read_each_length.
    now rewrite getSensorTypes_map, length_map. }
  unfold sample. rewrite bind_unfold. fold values w1.
  generalize dependent values. generalize w1. clear w1 w.
  intros [g1 g2 c n l o r] values Hlen.
  unfold bind, logfile_put, getTimestamp, cout_put, sleep_for, ret.
  rewrite logfile_values_unfold. cbv beta iota. fields.
  cbn [set_logfile set_clock_reads set_cout
       temp_gen pres_gen clock clock_reads logfile cout reads].
  rewrite console_loop_unfold by (cbn [plus]; congruence).
  unfold csv_line, console_line.
  cbn [set_logfile set_clock_reads set_cout
       temp_gen pres_gen clock clock_reads logfile cout reads fst snd
       at_time file_stamp console_stamp readings skipn].
  now rewrite !append_assoc.
Qed.

(** ** Readings depend on the engines only *)

Lemma readValue_same_gens (s : Sensor) (w1 w2 : World) :
  same_gens w1 w2 ->
  fst (readValue s w1) = fst (readValue s w2)
  /\ same_gens (snd (readValue s w1)) (snd (readValue s w2)).
Proof.
  intros [Ht Hp]. rewrite !readValue_unfold. unfold draw, same_gens.
  destruct s; cbn [gen_of fst snd]; rewrite ?Ht, ?Hp; repeat split;
    cbn [set_reads set_temp_gen set_pres_gen temp_gen pres_gen]; congruence.
Qed.

Lemma read_each_same_gens (ss : list Sensor) (w1 w2 : World) :
  same_gens w1 w2 ->
  fst (read_each ss w1) = fst (read_each ss w2)
  /\ same_gens (snd (read_each ss w1)) (snd (read_each ss w2)).
Proof.
  revert w1 w2; induction ss as [|s rest IH]; intros w1 w2 H.
  - split; [reflexivity | exact H].
  - rewrite !read_each_cons. cbn [fst snd].
    destruct (readValue_same_gens s w1 w2 H) as [Hv Hg].
    destruct (IH _ _ Hg) as [Hvs Hgs].
    split; [congruence | exact Hgs].
Qed.

Lemma read_each_app (ss1 ss2 : list Sensor) (w : World) :
  read_each (ss1 ++ ss2) w
  = ((fst (read_each ss1 w) ++ fst (read_each ss2 (snd (read_each ss1 w))))%list,
     snd (read_each ss2 (snd (read_each ss1 w)))).
Proof.
  revert w; induction ss1 as [|s rest IH]; intro w.
  - simpl. now destruct (read_each ss2 w).
  - rewrite <- app_comm_cons, !read_each_cons, IH. reflexivity.
Qed.

Lemma same_gens_refl (w : World) : same_gens w w.
Proof. split; reflexivity. Qed.

Lemma same_gens_trans (w1 w2 w3 : World) :
  same_gens w1 w2 -> same_gens w2 w3 -> same_gens w1 w3.
Proof. intros [A B] [C D]. split; congruence. Qed.

Lemma samples_from_same_inputs (m : SensorManager) (todo : nat) (time : double)
  (w w' : World) :
  same_inputs w w' -> samples_from m todo time w = samples_from m todo time w'.
Proof.
  revert time w w'; induction todo as [|todo IH]; intros time w w' H.
  - reflexivity.
  - cbn [samples_from]. destruct H as (Hg & Hc & Hn).
    pose proof (read_each_same_gens (sensors m) w w' Hg) as [Hv Hg1].
    pose proof (read_each_frame (sensors m) w) as (C1 & N1 & _).
    pose proof (read_each_frame (sensors m) w') as (C2 & N2 & _).
    rewrite !readAll_read_each.
    destruct (read_each (sensors m) w) as [values w1].
    destruct (read_each (sensors m) w') as [values' w1'].
    cbn [fst snd] in *. subst values'.
    unfold getTimestamp. cbv beta iota zeta.
    cbn [clock clock_reads set_clock_reads].
    replace (clock w1') with (clock w1) by congruence.
    replace (clock_reads w1') with (clock_reads w1) by congruence.
    f_equal. apply IH. unfold same_inputs, same_gens in *.
    cbn [set_clock_reads temp_gen pres_gen clock clock_reads].
    destruct Hg1 as [Hg1 Hg2]. repeat split; congruence.
Qed.

Lemma read_each_same_reads (ss : list Sensor) (w1 w2 : World) :
  same_gens w1 w2 -> reads w1 = reads w2 ->
  reads (snd (read_each ss w1)) = reads (snd (read_each ss w2)).
Proof.
  intros Hg Hr. rewrite !read_each_reads.
  destruct (read_each_same_gens ss w1 w2 Hg) as [Hv _]. congruence.
Qed.


Lemma sample_fields (m : SensorManager) (time : double) (w : World) :
  let w1 := snd (readAll m w) in
  let w' := snd (sample m time w) in
  logfile w' = (logfile w ++ csv_row (sample_at m time w))%string
  /\ cout w' = (cout w ++ console_row (getSensorTypes m) (sample_at m time w))%string
  /\ reads w' = reads w1
  /\ same_gens w' w1
  /\ clock w' = clock w
  /\ clock_reads w' = S (S (clock_reads w)).
Proof.
  intros w1 w'. subst w'. rewrite sample_unfold. fold w1.
  assert (F : clock w1 = clock w /\ clock_reads w1 = clock_reads w
              /\ logfile w1 = logfile w /\ cout w1 = cout w).
  { subst w1. rewrite readAll_read_each. apply read_each_frame. }
  destruct F as (F1 & F2 & F3 & F4).
  unfold sample_at, csv_row, console_row, same_gens,
    set_cout, set_logfile, set_clock_reads.
  cbn [temp_gen pres_gen clock clock_reads logfile cout reads
       at_time file_stamp console_stamp readings].
  rewrite F1, F2, F3, F4. repeat split.
Qed.

Lemma samples_from_step (m : SensorManager) (todo : nat) (time : double) (w : World) :
  samples_from m (S todo) time w
  = sample_at m time w
    :: samples_from m todo (PrimFloat.add time dt) (snd (sample m time w)).
Proof.
  cbn [samples_from].
  destruct (sample_fields m time w) as (_ & _ & _ & Hg & Hc & Hn).
  assert (F : clock (snd (readAll m w)) = clock w
              /\ clock_reads (snd (readAll m w)) = clock_reads w).
  { rewrite readAll_read_each.
    destruct (read_each_frame (sensors m) w) as (F1 & F2 & _). now split. }
  destruct F as [F1 F2]. unfold sample_at.
  destruct (readAll m w) as [values w1]. cbn [fst snd] in *.
  unfold getTimestamp. cbv beta iota zeta.
  cbn [clock clock_reads set_clock_reads]. rewrite F1, F2. f_equal.
  apply samples_from_same_inputs. unfold same_inputs, same_gens in *.
  cbn [set_clock_reads temp_gen pres_gen clock clock_reads].
  destruct Hg as [Hg1 Hg2]. repeat split; congruence.
Qed.

Lemma read_order_S (m : SensorManager) (n : nat) :
  read_order m (S n) = (sensors m ++ read_order m n)%list.
Proof. reflexivity. Qed.

(** ** The sampling loop *)

Lemma sampling_loop_unfold (m : SensorManager) (todo : nat) (time : double) (w : World) :
  let rows := samples_from m todo time w in
  let w' := snd (sampling_loop m todo time w) in
  let wr := snd (read_each (read_order m todo) w) in
  logfile w' = (logfile w ++ flatten (map csv_row rows))%string
  /\ cout w' = (cout w ++ flatten (map (console_row (getSensorTypes m)) rows))%string
  /\ reads w' = reads wr
  /\ same_gens w' wr
  /\ clock w' = clock w
  /\ clock_reads w' = 2 * todo + clock_reads w.
Proof.
  revert time w; induction todo as [|todo IH]; intros time w rows w' wr.
  - subst rows w' wr. cbn [samples_from sampling_loop map flatten fold_right].
    unfold ret. cbn [snd read_order repeat List.concat read_each].
    rewrite !append_nil_r. repeat split.
  - subst rows w' wr. cbn [sampling_loop]. rewrite bind_unfold.
    rewrite samples_from_step, read_order_S, read_each_app. cbn [snd].
    destruct (sample_fields m time w) as (S1 & S2 & S3 & S4 & S5 & S6).
    destruct (IH (PrimFloat.add time dt) (snd (sample m time w)))
      as (L1 & L2 & L3 & L4 & L5 & L6).
    rewrite readAll_read_each in S3, S4.
    destruct (read_each_same_gens (read_order m todo) _ _ S4) as [_ G].
    pose proof (read_each_same_reads (read_order m todo) _ _ S4 S3) as R.
    cbn [map flatten fold_right].
    rewrite L1, L2, L3, L5, L6, S1, S2, S5, S6, !append_assoc.
    split; [reflexivity|]. split; [reflexivity|]. split; [exact R|].
    split; [eapply same_gens_trans; eassumption|]. split; [reflexivity|lia].
Qed.

Lemma samples_from_length (m : SensorManager) (todo : nat) (time : double) (w : World) :
  List.length (samples_from m todo time w) = todo.
Proof.
  revert time w; induction todo as [|todo IH]; intros time w.
  - reflexivity.
  - rewrite samples_from_step. simpl. now rewrite IH.
Qed.

(** The [i]-th sample of a run of the loop. *)
Lemma samples_from_nth (m : SensorManager) (todo : nat) (time : double) (w : World)
  (i : nat) (r : Sample) :
  nth_error (samples_from m todo time w) i = Some r ->
  at_time r = elapsed_from time i
  /\ file_stamp r = strftime_HMS (clock w (2 * i + clock_reads w))
  /\ console_stamp r = strftime_HMS (clock w (S (2 * i + clock_reads w)))
  /\ List.length (readings r) = List.length (sensors m).
Proof.
  revert time w i; induction todo as [|todo IH]; intros time w i H.
  - destruct i; discriminate.
  - rewrite samples_from_step in H. destruct i as [|i].
    + injection H as <-. unfold sample_at. cbn [at_time file_stamp console_stamp readings].
      rewrite readAll_read_each, read_each_length. repeat split.
    + cbn [nth_error] in H. apply IH in H.
      destruct H as (H1 & H2 & H3 & H4).
      destruct (sample_fields m time w) as (_ & _ & _ & _ & S5 & S6).
      rewrite S5, S6 in *.
      replace (2 * S i + clock_reads w) with (2 * i + S (S (clock_reads w))) by lia.
      repeat split; try assumption.
      rewrite H1. unfold elapsed_from. now rewrite Nat.iter_succ_r.
Qed.

Lemma sampling_loop_reads (m : SensorManager) (todo : nat) (time : double) (w : World) :
  reads (snd (sampling_loop m todo time w))
  = (reads w
     ++ List.concat (map (fun r => combine (sensors m) (readings r))
                         (samples_from m todo time w)))%list.
Proof.
  revert time w; induction todo as [|todo IH]; intros time w.
  - cbn [sampling_loop samples_from map List.concat]. unfold ret.
    cbn [snd]. now rewrite app_nil_r.
  - cbn [sampling_loop]. rewrite bind_unfold, samples_from_step, IH.
    destruct (sample_fields m time w) as (_ & _ & S3 & _).
    rewrite S3. destruct (readAll_history m w) as [_ R].
    rewrite R. cbn [map List.concat]. unfold sample_at. cbn [readings].
    now rewrite <- app_assoc.
Qed.

(** ** main *)

(** The world in which the sampling loop of [main] starts. *)
Lemma main_loop_entry (env_clock : nat -> tm) :
  snd (cout_put cout_banner
         (snd (logfile_put csv_header (snd (logfile_open (start env_clock))))))
  = set_cout cout_banner (set_logfile csv_header (start env_clock)).
Proof. reflexivity. Qed.

Lemma main_with_unfold (samples : nat) (env_clock : nat -> tm) :
  let w' := snd (main_with samples (start env_clock)) in
  let rows := samples_from main_manager samples 0.0%float (start env_clock) in
  logfile w' = (csv_header ++ flatten (map csv_row rows))%string
  /\ cout w'
     = (cout_banner
        ++ flatten (map (console_row (getSensorTypes main_manager)) rows)
        ++ cout_done)%string
  /\ reads w'
     = List.concat (map (fun r => combine (sensors main_manager) (readings r)) rows)
  /\ fst (main_with samples (start env_clock)) = 0%Z.
Proof.
  intros w' rows. subst w'. unfold main_with.
  rewrite !bind_unfold, main_loop_entry.
  set (w0 := set_cout cout_banner (set_logfile csv_header (start env_clock))).
  assert (E : samples_from main_manager samples 0.0%float w0 = rows).
  { apply samples_from_same_inputs. repeat split. }
  destruct (sampling_loop_unfold main_manager samples 0.0%float w0)
    as (L1 & L2 & _).
  pose proof (sampling_loop_reads main_manager samples 0.0%float w0) as L3.
  rewrite E in L1, L2, L3.
  unfold logfile_close, cout_put, ret. cbn [fst snd]. unfold set_cout at 1 2 3.
  cbn [logfile cout reads].
  rewrite L1, L2, L3. subst w0. cbn [set_cout set_logfile logfile cout reads start].
  rewrite append_assoc. cbn [app]. repeat split.
Qed.

(** ** Reading a stream back: lines and fields *)

Lemma free_append (c : ascii) (a b : string) :
  free c (a ++ b) = free c a && free c b.
Proof.
  induction a as [|x a IH]; cbn [append free]; [reflexivity|].
  now rewrite IH, andb_assoc.
Qed.

Lemma split_free (c : ascii) (s : string) :
  free c s = true -> split c s = [s].
Proof.
  induction s as [|x s IH]; cbn [free split]; intro H; [reflexivity|].
  apply andb_prop in H as [Hx Hs]. apply negb_true_iff in Hx.
  now rewrite Hx, (IH Hs).
Qed.

Lemma split_append (c : ascii) (a b : string) :
  free c a = true -> split c (a ++ String c b) = a :: split c b.
Proof.
  induction a as [|x a IH]; cbn [free split append]; intro H.
  - now rewrite Ascii.eqb_refl.
  - apply andb_prop in H as [Hx Ha]. apply negb_true_iff in Hx.
    now rewrite Hx, (IH Ha).
Qed.

(** Newline-terminated lines read back as those lines, and nothing after
    the last newline. *)
Lemma split_lines (lines : list string) :
  Forall (fun l => free nl_char l = true) lines ->
  split nl_char (flatten (map (fun l => l ++ nl)%string lines))
  = (lines ++ [EmptyString])%list.
Proof.
  induction 1 as [|l lines Hl _ IH]; cbn [map flatten fold_right app];
    [reflexivity|].
  fold (flatten (map (fun l => l ++ nl)%string lines)).
  unfold nl at 1. rewrite append_assoc. cbn [append].
  now rewrite (split_append _ _ _ Hl), IH.
Qed.

(** Comma-separated fields read back as those fields. *)
Lemma split_fields (first : string) (others : list string) :
  plain first = true ->
  Forall (fun f => plain f = true) others ->
  split comma_char (first ++ flatten (map (fun f => "," ++ f)%string others))
  = first :: others.
Proof.
  intros Hf Ho; revert first Hf; induction Ho as [|f others Hx _ IH];
    intros first Hf; cbn [map flatten fold_right].
  - rewrite append_nil_r. apply split_free.
    unfold plain in Hf. now apply andb_prop in Hf.
  - fold (flatten (map (fun f => "," ++ f)%string others)).
    rewrite append_assoc. cbn [append].
    unfold plain in Hf. apply andb_prop in Hf as [Hf _].
    change (String "," (f ++ flatten (map (fun f0 => ("," ++ f0)%string) others)))
      with (String comma_char (f ++ flatten (map (fun f0 => ("," ++ f0)%string) others))).
    rewrite (split_append _ _ _ Hf). f_equal. exact (IH f Hx).
Qed.

Lemma fields_one_line (fs : list string) :
  Forall (fun f => plain f = true) fs ->
  free nl_char (flatten (map (fun f => "," ++ f)%string fs)) = true.
Proof.
  unfold flatten. induction 1 as [|f fs Hf _ IH]; [reflexivity|].
  cbn [map fold_right]. rewrite !free_append, IH.
  unfold plain in Hf. apply andb_prop in Hf as [_ ->]. reflexivity.
Qed.

Lemma plain_append (a b : string) :
  plain a = true -> plain b = true -> plain (a ++ b) = true.
Proof.
  unfold plain. rewrite !free_append. intros Ha Hb.
  apply andb_prop in Ha as [-> ->]. apply andb_prop in Hb as [-> ->]. reflexivity.
Qed.

Lemma digit_char_plain (d : nat) (rest : string) :
  plain rest = true -> plain (String (digit_char d) rest) = true.
Proof.
  intro H. unfold plain in *. cbn [free]. unfold digit_char.
  apply andb_prop in H as [-> ->].
  assert (Hd : d mod 10 < 10) by (apply Nat.mod_upper_bound; lia).
  remember (d mod 10) as k eqn:Hk. clear Hk.
  do 10 (destruct k as [|k]; [reflexivity|]). lia.
Qed.

(** A timestamp is eight characters, [HH:MM:SS]. *)
Lemma strftime_HMS_length (t : tm) : String.length (strftime_HMS t) = 8.
Proof. reflexivity. Qed.

Lemma strftime_HMS_plain (t : tm) : plain (strftime_HMS t) = true.
Proof.
  unfold strftime_HMS, two_digits.
  repeat first [ apply plain_append | apply digit_char_plain | reflexivity ].
Qed.

(** The history of [readValue] calls of a run of [main] is that of reading
    the sensors in loop order, starting from a fresh process. *)
Lemma main_with_reads (samples : nat) (env_clock : nat -> tm) :
  reads (snd (main_with samples (start env_clock)))
  = reads (snd (read_each (read_order main_manager samples) (start env_clock))).
Proof.
  unfold main_with. rewrite !bind_unfold, main_loop_entry.
  set (w0 := set_cout cout_banner (set_logfile csv_header (start env_clock))).
  destruct (sampling_loop_unfold main_manager samples 0.0%float w0)
    as (_ & _ & R & _).
  unfold logfile_close, cout_put, ret. cbn [fst snd]. unfold set_cout at 1.
  cbn [reads].
  rewrite R. apply read_each_same_reads; repeat split.
Qed.

Lemma nth_error_concat_pairs {A B : Type} (f : A -> list B) (l : list A)
  (i : nat) (a : A) :
  (forall x, In x l -> List.length (f x) = 2) ->
  nth_error l i = Some a ->
  nth_error (List.concat (map f l)) (2 * i) = nth_error (f a) 0
  /\ nth_error (List.concat (map f l)) (2 * i + 1) = nth_error (f a) 1.
Proof.
  revert i; induction l as [|x l IH]; intros i Hlen Hi.
  - destruct i; discriminate.
  - cbn [map List.concat]. destruct i as [|i].
    + injection Hi as ->.
      assert (H2 : List.length (f a) = 2) by (apply Hlen; now left).
      destruct (f a) as [|b0 [|b1 [|]]]; try discriminate. split; reflexivity.
    + cbn [nth_error] in Hi.
      assert (H2 : List.length (f x) = 2) by (apply Hlen; now left).
      destruct (IH i (fun y Hy => Hlen y (or_intror Hy)) Hi) as [E0 E1].
      replace (2 * S i) with (2 + 2 * i) by lia.
      replace (2 + 2 * i + 1) with (2 + (2 * i + 1)) by lia.
      destruct (f x) as [|b0 [|b1 [|]]]; try discriminate.
      cbn [app plus nth_error]. now split.
Qed.

Lemma samples_from_readings (m : SensorManager) (todo : nat) (time : double)
  (w : World) (r : Sample) :
  In r (samples_from m todo time w) ->
  List.length (readings r) = List.length (sensors m).
Proof.
  intro H. apply In_nth_error in H as [i Hi].
  now apply samples_from_nth in Hi.
Qed.

(** The [i]-th sample of [main]: its time, its two timestamps, and its two
    readings, which are the values of the [2 i]-th and [2 i + 1]-th
    [readValue] calls of the run, on the temperature and the pressure sensor. *)
Lemma main_sample (samples : nat) (env_clock : nat -> tm) (i : nat) (r : Sample) :
  nth_error (samples_from main_manager samples 0.0%float (start env_clock)) i = Some r ->
  exists t p,
    readings r = [t; p]
    /\ at_time r = elapsed i
    /\ file_stamp r = strftime_HMS (env_clock (2 * i))
    /\ console_stamp r = strftime_HMS (env_clock (2 * i + 1))
    /\ nth_error (reads (snd (main_with samples (start env_clock)))) (2 * i)
       = Some (TemperatureSensor, t)
    /\ nth_error (reads (snd (main_with samples (start env_clock)))) (2 * i + 1)
       = Some (PressureSensor, p).
Proof.
  intro Hi.
  destruct (samples_from_nth _ _ _ _ _ _ Hi) as (H1 & H2 & H3 & H4).
  cbn [start clock clock_reads] in H2, H3. rewrite Nat.add_0_r in H2, H3.
  destruct (main_with_unfold samples env_clock) as (_ & _ & R & _).
  destruct (nth_error_concat_pairs
              (fun r => combine (sensors main_manager) (readings r))
              (samples_from main_manager samples 0.0%float (start env_clock)) i r)
    as [E0 E1].
  - intros x Hx. apply samples_from_readings in Hx.
    rewrite length_combine, Hx. reflexivity.
  - exact Hi.
  - rewrite R, E0, E1. cbn [main_manager addSensor SensorManager_new sensors app] in *.
    destruct (readings r) as [|t [|p [|]]]; try discriminate.
    exists t, p. rewrite Nat.add_1_r. repeat split; assumption.
Qed.

Lemma combine_map_fst {A B C : Type} (f : A -> B) (l : list A) (l' : list C) :
  combine (map f l) l' = map (fun x => (f (fst x), snd x)) (combine l l').
Proof.
  revert l'; induction l as [|a l IH]; intros [|c l']; cbn [map combine];
    try reflexivity. now rewrite IH.
Qed.


(** ** The CSV file, read back

    What follows needs one fact about the platform: formatting a [double]
    in fixed notation puts neither a comma nor a newline into the stream, as
    it does in the "C" locale the program runs in. *)

Section PlainFormat.

Hypothesis fixed2_plain : forall x : double, plain (fixed2 x) = true.

Lemma csv_line_as_fields (r : Sample) :
  csv_line r
  = (fixed2 (at_time r)
     ++ flatten (map (fun f => "," ++ f)%string
                     (file_stamp r :: map fixed2 (readings r))))%string.
Proof.
  unfold csv_line. cbn [map flatten fold_right].
  rewrite map_map. now rewrite !append_assoc.
Qed.

Lemma fields_plain (r : Sample) :
  plain (file_stamp r) = true ->
  Forall (fun f => plain f = true) (file_stamp r :: map fixed2 (readings r)).
Proof.
  intro H. constructor; [exact H|].
  apply Forall_forall. intros f Hf. apply in_map_iff in Hf as (v & <- & _).
  apply fixed2_plain.
Qed.

Lemma csv_line_fields (r : Sample) :
  plain (file_stamp r) = true ->
  split comma_char (csv_line r)
  = fixed2 (at_time r) :: file_stamp r :: map fixed2 (readings r).
Proof.
  intro H. rewrite csv_line_as_fields.
  apply split_fields; [apply fixed2_plain | now apply fields_plain].
Qed.

Lemma csv_line_one_line (r : Sample) :
  plain (file_stamp r) = true -> free nl_char (csv_line r) = true.
Proof.
  intro H. rewrite csv_line_as_fields, free_append.
  apply andb_true_intro. split.
  - specialize (fixed2_plain (at_time r)). unfold plain in fixed2_plain.
    now apply andb_prop in fixed2_plain.
  - apply fields_one_line. now apply fields_plain.
Qed.


End PlainFormat.

(** ** Determinism *)

(** C10: [readValue()] is a function of its class's engine state: from equal
    states of that engine, two calls return equal values and leave equal
    states, whatever else differs between the two worlds.  Both engines being
    default-constructed at first use, two runs of [main] make the same
    sequence of [readValue] calls with the same results, whatever the clock
    shows. *)
Theorem readValue_deterministic :
  (forall (s : Sensor) (w1 w2 : World),
      gen_of s w1 = gen_of s w2 ->
      fst (readValue s w1) = fst (readValue s w2)
      /\ gen_of s (snd (readValue s w1)) = gen_of s (snd (readValue s w2)))
  /\ (forall clock1 clock2 : nat -> tm,
         reads (snd (main (start clock1))) = reads (snd (main (start clock2)))).
Proof.
  split.
  - intros s w1 w2 H. rewrite !readValue_value, !readValue_gen.
    unfold draw. rewrite H. split; reflexivity.
  - intros clock1 clock2. unfold main.
    rewrite !main_with_reads. apply read_each_same_reads; repeat split.
Qed.

End Properties.

(** * Further properties *)

Section FurtherProperties.

Context {P : Platform}.

(** ** Sensors of one class share one engine *)

Lemma engine_after_S (s : Sensor) (k : nat) (gen : Engine) :
  engine_after s (S k) gen = engine_after s k (step s gen).
Proof. unfold engine_after. apply Nat.iter_succ_r. Qed.

Lemma readValue_same_class (s : Sensor) (w : World) :
  fst (readValue s w)
  = fst (uniform_real_distribution (fst (bounds s)) (snd (bounds s))
           (static_engine (gen_of s w)))
  /\ static_engine (gen_of s (snd (readValue s w)))
     = step s (static_engine (gen_of s w)).
Proof. rewrite readValue_value, readValue_gen. split; reflexivity. Qed.

Lemma read_each_draws (ss : list Sensor) (s : Sensor) (w : World) :
  readings_of s ss (fst (read_each ss w))
  = draws s (count_occ Sensor_eq_dec ss s) (static_engine (gen_of s w))
  /\ static_engine (gen_of s (snd (read_each ss w)))
     = engine_after s (count_occ Sensor_eq_dec ss s) (static_engine (gen_of s w)).
Proof.
  revert w; induction ss as [|x rest IH]; intro w.
  - split; reflexivity.
  - rewrite read_each_cons. cbn [fst snd]. unfold readings_of in *.
    cbn [combine filter count_occ fst]. unfold Sensor_eqb at 1.
    destruct (IH (snd (readValue x w))) as [IHv IHg].
    destruct (Sensor_eq_dec x s) as [->|Hne].
    + destruct (readValue_same_class s w) as [Hv Hg].
      cbn [map snd draws]. rewrite IHv, IHg, Hv, Hg, engine_after_S.
      split; reflexivity.
    + rewrite IHv, IHg, (readValue_other_gen x s w Hne). split; reflexivity.
Qed.

(** X4: in one [readAll()], the values read from the sensors of one class
    are, in order, successive draws of that class's single static engine, as
    many as the manager holds sensors of the class, and the engine is left
    advanced by that many draws: two sensors of a class do not have a random
    source each. *)
Theorem readAll_draws_per_class (m : SensorManager) (s : Sensor) (w : World) :
  readings_of s (sensors m) (fst (readAll m w))
  = draws s (count_occ Sensor_eq_dec (sensors m) s) (static_engine (gen_of s w))
  /\ static_engine (gen_of s (snd (readAll m w)))
     = engine_after s (count_occ Sensor_eq_dec (sensors m) s)
         (static_engine (gen_of s w)).
Proof. rewrite readAll_read_each. apply read_each_draws. Qed.

(** ** How the manager's operations compose *)

(** X2: reading a manager to which a sensor was added is reading the manager
    as it was and then the new sensor, whose value comes last; its list of
    types is the old list with the new label at the end. *)
Theorem readAll_after_addSensor (m : SensorManager) (sensor : Sensor) (w : World) :
  readAll (addSensor m sensor) w
  = ((fst (readAll m w) ++ [fst (readValue sensor (snd (readAll m w)))])%list,
     snd (readValue sensor (snd (readAll m w))))
  /\ getSensorTypes (addSensor m sensor)
     = (getSensorTypes m ++ [getType sensor])%list.
Proof.
  split.
  - rewrite !readAll_read_each. cbn [addSensor sensors].
    rewrite read_each_app, read_each_cons. reflexivity.
  - rewrite !getSensorTypes_map. cbn [addSensor sensors].
    now rewrite map_app.
Qed.

(** X3: reading the temperature sensor and then the pressure sensor gives
    the same two values and leaves both engines in the same states as reading
    them the other way round; only the order of the two calls in the history
    differs. *)
Theorem readValue_commute (w : World) :
  let tp := readValue PressureSensor (snd (readValue TemperatureSensor w)) in
  let pt := readValue TemperatureSensor (snd (readValue PressureSensor w)) in
  fst (readValue TemperatureSensor w) = fst pt
  /\ fst tp = fst (readValue PressureSensor w)
  /\ temp_gen (snd tp) = temp_gen (snd pt)
  /\ pres_gen (snd tp) = pres_gen (snd pt)
  /\ reads (snd tp)
     = (reads w ++ [(TemperatureSensor, fst pt); (PressureSensor, fst tp)])%list
  /\ reads (snd pt)
     = (reads w ++ [(PressureSensor, fst tp); (TemperatureSensor, fst pt)])%list.
Proof.
  intros tp pt. subst tp pt. rewrite !readValue_unfold. unfold draw.
  cbn [gen_of set_reads set_temp_gen set_pres_gen temp_gen pres_gen reads fst snd].
  rewrite <- !app_assoc. repeat split.
Qed.

(** ** The sampling loop and main, from any world *)

Lemma read_order_length (m : SensorManager) (k : nat) :
  List.length (read_order m k) = k * List.length (sensors m).
Proof.
  induction k as [|k IH]; [reflexivity|].
  rewrite read_order_S, length_app, IH. reflexivity.
Qed.

Lemma read_order_count (m : SensorManager) (k : nat) (s : Sensor) :
  count_occ Sensor_eq_dec (read_order m k) s
  = k * count_occ Sensor_eq_dec (sensors m) s.
Proof.
  induction k as [|k IH]; [reflexivity|].
  rewrite read_order_S, count_occ_app, IH. reflexivity.
Qed.

Lemma map_fst_combine {A B : Type} (l : list A) (l' : list B) :
  List.length l' = List.length l -> map fst (combine l l') = l.
Proof.
  revert l'; induction l as [|x l IH]; intros [|y l'] H; try discriminate;
    [reflexivity|].
  cbn [combine map fst]. f_equal. apply IH. now injection H.
Qed.

Lemma readValue_constructs (s x : Sensor) (w : World) :
  x = s \/ gen_of s w <> None -> gen_of s (snd (readValue x w)) <> None.
Proof.
  intros [->|H].
  - now rewrite readValue_gen.
  - destruct (Sensor_eq_dec x s) as [->|Hne].
    + now rewrite readValue_gen.
    + now rewrite readValue_other_gen.
Qed.

Lemma read_each_constructs (ss : list Sensor) (s : Sensor) (w : World) :
  In s ss \/ gen_of s w <> None -> gen_of s (snd (read_each ss w)) <> None.
Proof.
  revert w; induction ss as [|x rest IH]; intros w H.
  - destruct H as [[]|H]. exact H.
  - rewrite read_each_cons. cbn [snd]. apply IH.
    destruct H as [[->|H]|H].
    + right. apply readValue_constructs. now left.
    + now left.
    + right. apply readValue_constructs. now right.
Qed.

Lemma static_engine_Some (slot : option Engine) :
  slot <> None -> slot = Some (static_engine slot).
Proof. destruct slot; [reflexivity | congruence]. Qed.

(** X10: [k] passes of the sampling loop over any manager append [k] rows to
    the file and [k] lines to the console, ask the clock [2 k] times, and
    call [readValue] on the manager's sensors, in registration order, [k]
    times over; the clock itself is not changed. *)
Theorem sampling_loop_counts
  (m : SensorManager) (k : nat) (time : double) (w : World) :
  let w' := snd (sampling_loop m k time w) in
  let rows := samples_from m k time w in
  List.length rows = k
  /\ logfile w' = (logfile w ++ flatten (map csv_row rows))%string
  /\ cout w' = (cout w ++ flatten (map (console_row (getSensorTypes m)) rows))%string
  /\ clock_reads w' = 2 * k + clock_reads w
  /\ clock w' = clock w
  /\ map fst (reads w') = (map fst (reads w) ++ read_order m k)%list
  /\ List.length (reads w') = List.length (reads w) + k * List.length (sensors m).
Proof.
  intros w' rows. subst w' rows.
  destruct (sampling_loop_unfold m k time w) as (L1 & L2 & L3 & _ & L5 & L6).
  rewrite L3, read_each_reads.
  assert (Hlen : List.length (fst (read_each (read_order m k) w))
                 = List.length (read_order m k)) by apply read_each_length.
  split; [apply samples_from_length|].
  split; [exact L1|]. split; [exact L2|]. split; [exact L6|]. split; [exact L5|].
  split.
  - rewrite map_app. f_equal. now apply map_fst_combine.
  - rewrite length_app, length_combine, Hlen, Nat.min_id, read_order_length.
    reflexivity.
Qed.

Lemma main_entry (w : World) :
  snd (cout_put cout_banner (snd (logfile_put csv_header (snd (logfile_open w)))))
  = set_cout (cout w ++ cout_banner) (set_logfile csv_header w).
Proof. now destruct w. Qed.

Lemma main_with_world (samples : nat) (w : World) :
  let w' := snd (main_with samples w) in
  let rows := samples_from main_manager samples 0.0%float w in
  logfile w' = (csv_header ++ flatten (map csv_row rows))%string
  /\ cout w'
     = (cout w ++ cout_banner
        ++ flatten (map (console_row (getSensorTypes main_manager)) rows)
        ++ cout_done)%string
  /\ reads w' = reads (snd (read_each (read_order main_manager samples) w))
  /\ same_gens w' (snd (read_each (read_order main_manager samples) w))
  /\ clock_reads w' = 2 * samples + clock_reads w
  /\ fst (main_with samples w) = 0%Z.
Proof.
  intros w' rows. subst w'. unfold main_with.
  rewrite !bind_unfold, main_entry.
  set (w0 := set_cout (cout w ++ cout_banner) (set_logfile csv_header w)).
  assert (E : samples_from main_manager samples 0.0%float w0 = rows).
  { apply samples_from_same_inputs. repeat split. }
  destruct (sampling_loop_unfold main_manager samples 0.0%float w0)
    as (L1 & L2 & L3 & L4 & _ & L6).
  rewrite E in L1, L2.
  assert (G : same_gens w0 w) by (split; reflexivity).
  destruct (read_each_same_gens (read_order main_manager samples) w0 w G) as [_ G'].
  pose proof (read_each_same_reads (read_order main_manager samples) w0 w G eq_refl)
    as R.
  unfold logfile_close, cout_put, ret. cbn [fst snd].
  unfold set_cout at 1 2 3 4 5. unfold same_gens at 1.
  cbn [logfile cout reads temp_gen pres_gen clock_reads].
  rewrite L1, L2, L3, L6, R. subst w0.
  cbn [set_cout set_logfile logfile cout clock_reads].
  rewrite !append_assoc.
  destruct L4 as [L4a L4b]. destruct G' as [Ga Gb].
  repeat split; congruence.
Qed.

(** X9: opening the file truncates it and the console is appended to:
    whatever [sensor_data.csv] held before, after [main] it holds the header
    and the rows of this run only, while what [main] writes to the console
    follows what was there. *)
Theorem main_truncates_file (w : World) (old : string) :
  logfile (snd (main (set_logfile old w))) = logfile (snd (main w))
  /\ logfile (snd (main w))
     = (csv_header
        ++ flatten (map csv_row
                        (samples_from main_manager totalSamples 0.0%float w)))%string
  /\ cout (snd (main w))
     = (cout w ++ cout_banner
        ++ flatten (map (console_row (getSensorTypes main_manager))
                        (samples_from main_manager totalSamples 0.0%float w))
        ++ cout_done)%string.
Proof.
  unfold main.
  destruct (main_with_world totalSamples w) as (L & C & _).
  destruct (main_with_world totalSamples (set_logfile old w)) as (L' & _).
  split; [|split; assumption].
  rewrite L, L'.
  rewrite (samples_from_same_inputs main_manager totalSamples 0.0%float
             (set_logfile old w) w) by (repeat split).
  reflexivity.
Qed.

Lemma readAll_main_manager (w : World) :
  fst (readAll main_manager w)
  = [fst (uniform_real_distribution 20.0%float 30.0%float
            (static_engine (temp_gen w)));
     fst (uniform_real_distribution 0.9%float 1.1%float
            (static_engine (pres_gen w)))]
  /\ static_engine (temp_gen (snd (readAll main_manager w)))
     = step TemperatureSensor (static_engine (temp_gen w))
  /\ static_engine (pres_gen (snd (readAll main_manager w)))
     = step PressureSensor (static_engine (pres_gen w)).
Proof.
  rewrite readAll_read_each.
  change (sensors main_manager) with [TemperatureSensor; PressureSensor].
  rewrite !read_each_cons. cbn [read_each ret fst snd].
  rewrite !readValue_unfold. unfold draw, step.
  cbn [gen_of bounds set_reads set_temp_gen set_pres_gen temp_gen pres_gen fst snd
       static_engine].
  repeat split.
Qed.

Lemma samples_from_draws (n : nat) (time : double) (w : World) :
  map readings (samples_from main_manager n time w)
  = map (fun tp => [fst tp; snd tp])
        (combine (draws TemperatureSensor n (static_engine (temp_gen w)))
                 (draws PressureSensor n (static_engine (pres_gen w)))).
Proof.
  revert time w; induction n as [|n IH]; intros time w; [reflexivity|].
  rewrite samples_from_step. cbn [map draws combine fst snd bounds].
  destruct (readAll_main_manager w) as (Hv & Ht & Hp).
  destruct (sample_fields main_manager time w) as (_ & _ & _ & [Gt Gp] & _).
  rewrite IH, Gt, Gp, Ht, Hp. unfold sample_at. cbn [readings]. now rewrite Hv.
Qed.

(** X5: the readings [main] samples are the first twenty draws of a
    default-constructed engine of each class: pass [i] reads the [i]-th
    temperature draw and the [i]-th pressure draw, and these are what the
    rows of the file are made of. *)
Theorem main_readings_are_first_draws (env_clock : nat -> tm) :
  let rows := samples_from main_manager totalSamples 0.0%float (start env_clock) in
  logfile (snd (main (start env_clock)))
  = (csv_header ++ flatten (map csv_row rows))%string
  /\ map readings rows
     = map (fun tp => [fst tp; snd tp])
           (combine (draws TemperatureSensor 20 default_engine)
                    (draws PressureSensor 20 default_engine)).
Proof.
  intro rows. subst rows. split.
  - unfold main. now destruct (main_with_world totalSamples (start env_clock)).
  - apply samples_from_draws.
Qed.

(** X7: [main] returns 0; by then it has asked the clock exactly 40 times
    and called [readValue] 40 times, alternately on the temperature and the
    pressure sensor, and each engine is 20 draws past its default state. *)
Theorem main_final_state (env_clock : nat -> tm) :
  let w' := snd (main (start env_clock)) in
  fst (main (start env_clock)) = 0%Z
  /\ clock_reads w' = 40
  /\ map fst (reads w')
     = List.concat (repeat [TemperatureSensor; PressureSensor] 20)
  /\ temp_gen w' = Some (engine_after TemperatureSensor 20 default_engine)
  /\ pres_gen w' = Some (engine_after PressureSensor 20 default_engine).
Proof.
  intro w'. subst w'. unfold main.
  destruct (main_with_world totalSamples (start env_clock))
    as (_ & _ & R & [Gt Gp] & N & Z0).
  split; [exact Z0|]. split; [exact N|]. split.
  - rewrite R, read_each_reads. cbn [start reads app].
    apply map_fst_combine, read_each_length.
  - set (wr := snd (read_each (read_order main_manager totalSamples)
                              (start env_clock))) in *.
    assert (Hs : forall s, In s [TemperatureSensor; PressureSensor] ->
                 gen_of s wr
                 = Some (engine_after s 20 default_engine)).
    { intros s Hin. subst wr.
      rewrite (static_engine_Some
                 (gen_of s (snd (read_each (read_order main_manager totalSamples)
                                           (start env_clock))))).
      - destruct (read_each_draws (read_order main_manager totalSamples) s
                    (start env_clock)) as [_ Hg].
        rewrite Hg, read_order_count. f_equal.
        destruct Hin as [<-|[<-|[]]]; reflexivity.
      - apply read_each_constructs. left.
        destruct Hin as [<-|[<-|[]]]; cbn; tauto. }
    rewrite Gt, Gp. split.
    + apply (Hs TemperatureSensor). now left.
    + apply (Hs PressureSensor). right. now left.
Qed.

(** ** Timestamps *)

Lemma digit_char_inj (a b : nat) :
  a < 10 -> b < 10 -> digit_char a = digit_char b -> a = b.
Proof.
  intros Ha Hb H. unfold digit_char in H.
  rewrite !Nat.mod_small in H by lia.
  apply (f_equal nat_of_ascii) in H.
  rewrite !nat_ascii_embedding in H by lia. lia.
Qed.

Lemma two_digits_inj (n m : nat) :
  n < 100 -> m < 100 -> two_digits n = two_digits m -> n = m.
Proof.
  intros Hn Hm H. unfold two_digits in H. injection H as Hhi Hlo.
  assert (Hn10 : n / 10 < 10) by (apply Nat.Div0.div_lt_upper_bound; lia).
  assert (Hm10 : m / 10 < 10) by (apply Nat.Div0.div_lt_upper_bound; lia).
  apply digit_char_inj in Hhi; [|assumption..].
  unfold digit_char in Hlo.
  apply (f_equal nat_of_ascii) in Hlo.
  assert (Bn : n mod 10 < 10) by (apply Nat.mod_upper_bound; lia).
  assert (Bm : m mod 10 < 10) by (apply Nat.mod_upper_bound; lia).
  rewrite !nat_ascii_embedding in Hlo by lia.
  change (fst (Nat.divmod n 9 0 9)) with (n / 10) in Hhi.
  change (fst (Nat.divmod m 9 0 9)) with (m / 10) in Hhi.
  rewrite (Nat.div_mod_eq n 10), (Nat.div_mod_eq m 10). lia.
Qed.

Lemma two_digits_app_inj (a b : nat) (x y : string) :
  (two_digits a ++ x)%string = (two_digits b ++ y)%string ->
  two_digits a = two_digits b /\ x = y.
Proof.
  unfold two_digits.
  generalize (digit_char (a / 10)) (digit_char a)
             (digit_char (b / 10)) (digit_char b).
  intros c1 c2 c3 c4 H. cbn [append] in H. injection H as -> -> ->.
  split; reflexivity.
Qed.

Lemma colon_app_inj (x y : string) :
  (":" ++ x)%string = (":" ++ y)%string -> x = y.
Proof. cbn [append]. intro H. now injection H. Qed.

Lemma strftime_HMS_inj (t1 t2 : tm) :
  valid_tm t1 -> valid_tm t2 -> strftime_HMS t1 = strftime_HMS t2 -> t1 = t2.
Proof.
  destruct t1 as [h1 m1 s1], t2 as [h2 m2 s2].
  unfold valid_tm, strftime_HMS. cbn [tm_hour tm_min tm_sec].
  intros (H1 & M1 & S1) (H2 & M2 & S2) E.
  apply two_digits_app_inj in E as [Hh E]. apply colon_app_inj in E.
  apply two_digits_app_inj in E as [Hm E]. apply colon_app_inj in E.
  apply two_digits_inj in Hh; [|lia..].
  apply two_digits_inj in Hm; [|lia..].
  apply two_digits_inj in E; [|lia..].
  congruence.
Qed.

(** X1: [getTimestamp] tells times of day apart: when the clock shows two
    valid local times, the two timestamps are equal only if hour, minute and
    second are. *)
Theorem getTimestamp_injective (w1 w2 : World) :
  valid_tm (clock w1 (clock_reads w1)) ->
  valid_tm (clock w2 (clock_reads w2)) ->
  fst (getTimestamp w1) = fst (getTimestamp w2) ->
  clock w1 (clock_reads w1) = clock w2 (clock_reads w2).
Proof. unfold getTimestamp. cbn [fst]. apply strftime_HMS_inj. Qed.



(** ** Rows and lines, read back *)

Section PlainFormatMore.

Hypothesis fixed2_plain : forall x : double, plain (fixed2 x) = true.


Lemma console_entries_one_line (labels : list string) (values : list double) :
  Forall (fun l => free nl_char l = true) labels ->
  free nl_char
    (flatten (map (fun lv => console_entry (fst lv) (snd lv))
                  (combine labels values))) = true.
Proof.
  intro H; revert values; induction H as [|l labels Hl _ IH]; intros [|v values];
    try reflexivity.
  cbn [combine map flatten fold_right fst snd]. unfold console_entry.
  fold (flatten (map (fun lv => (fst lv ++ ": " ++ fixed2 (snd lv) ++ "  ")%string)
                     (combine labels values))).
  rewrite !free_append, Hl. specialize (IH values). unfold console_entry in IH.
  rewrite IH. pose proof (fixed2_plain v) as Hv. unfold plain in Hv.
  apply andb_prop in Hv as [_ ->]. reflexivity.
Qed.

Lemma lines_first_last (first : string) (mid : list string) (last : string) :
  flatten (map (fun l => l ++ nl)%string (first :: mid ++ [last])%list)
  = ((first ++ nl) ++ flatten (map (fun l => l ++ nl)%string mid)
     ++ (last ++ nl))%string.
Proof.
  change (flatten (map (fun l => l ++ nl)%string (first :: mid ++ [last])%list))
    with ((first ++ nl)
          ++ flatten (map (fun l => l ++ nl)%string (mid ++ [last])%list))%string.
  rewrite map_app, flatten_app. cbn [map flatten fold_right].
  now rewrite append_nil_r.
Qed.

(** X8: what [main] writes to the console reads back as 22 lines: the
    opening message, one line per sample in order, and the closing message. *)
Theorem console_reads_back (env_clock : nat -> tm) :
  let rows := samples_from main_manager totalSamples 0.0%float (start env_clock) in
  let lines :=
    map (fun r => console_line (console_stamp r) ["Temperature"; "Pressure"]
                               (readings r)) rows in
  cout_done = (closing_message ++ nl)%string
  /\ split nl_char (cout (snd (main (start env_clock))))
     = ("Logging sensor data to sensor_data.csv ..." :: lines
        ++ [closing_message; EmptyString])%list
  /\ List.length ("Logging sensor data to sensor_data.csv ..." :: lines
                  ++ [closing_message])%list = 22.
Proof.
  intros rows lines. split; [reflexivity|].
  destruct (main_with_unfold totalSamples env_clock) as (_ & C & _).
  split.
  - unfold main. rewrite C. fold rows.
    replace (map (console_row (getSensorTypes main_manager)) rows)
      with (map (fun l => l ++ nl)%string lines)
      by (subst lines; rewrite map_map; reflexivity).
    change cout_banner with ("Logging sensor data to sensor_data.csv ..." ++ nl)%string.
    change cout_done with (closing_message ++ nl)%string.
    rewrite <- lines_first_last.
    replace ("Logging sensor data to sensor_data.csv ..." :: lines
             ++ [closing_message; EmptyString])%list
      with (("Logging sensor data to sensor_data.csv ..." :: lines
             ++ [closing_message]) ++ [EmptyString])%list
      by (cbn [app]; rewrite <- app_assoc; reflexivity).
    apply split_lines. constructor; [reflexivity|].
    apply Forall_app. split; [|constructor; [reflexivity|constructor]].
    subst lines. apply Forall_forall. intros l Hl.
    apply in_map_iff in Hl as (r & <- & Hr).
    apply In_nth_error in Hr as [i Hi]. apply samples_from_nth in Hi.
    destruct Hi as (_ & _ & -> & _).
    unfold console_line. rewrite !free_append.
    pose proof (strftime_HMS_plain
                  (clock (start env_clock) (S (2 * i + clock_reads (start env_clock)))))
      as Hs.
    unfold plain in Hs. apply andb_prop in Hs as [_ ->].
    rewrite console_entries_one_line
      by (repeat constructor).
    reflexivity.
  - cbn [List.length]. rewrite length_app. subst lines rows.
    rewrite length_map, samples_from_length. reflexivity.
Qed.

End PlainFormatMore.

End FurtherProperties.




(** * The two streams of main, line by line *)

Section Streams.

Context {P : Platform}.

Lemma digit_char_table (n : nat) : digit_char n = decimal_digit (n mod 10).
Proof.
  unfold digit_char.
  assert (H : n mod 10 < 10) by (apply Nat.mod_upper_bound; lia).
  remember (n mod 10) as k eqn:Hk. clear Hk.
  do 10 (destruct k as [|k]; [reflexivity|]). lia.
Qed.

(** On a valid time of day the timestamp is that time written [HH:MM:SS]. *)
Lemma strftime_HMS_spec (t : tm) : valid_tm t -> strftime_HMS t = HH_MM_SS t.
Proof.
  destruct t as [h m s]. unfold valid_tm. cbn [tm_hour tm_min tm_sec].
  intros (Hh & Hm & Hs).
  unfold strftime_HMS, two_digits, HH_MM_SS. cbn [tm_hour tm_min tm_sec].
  rewrite !digit_char_table.
  rewrite (Nat.mod_small (h / 10) 10), (Nat.mod_small (m / 10) 10),
    (Nat.mod_small (s / 10) 10)
    by (apply Nat.Div0.div_lt_upper_bound; lia).
  reflexivity.
Qed.

Lemma elapsed_whole (i : nat) : i < totalSamples -> elapsed i = whole_seconds i.
Proof.
  unfold totalSamples. intro Hi.
  do 20 (destruct i as [|i]; [vm_compute; reflexivity|]). lia.
Qed.

Lemma map_by_index {A B : Type} (f : A -> B) (l : list A) (g : nat -> B) :
  (forall i a, nth_error l i = Some a -> f a = g i) ->
  map f l = map g (seq 0 (List.length l)).
Proof.
  revert g; induction l as [|x l IH]; intros g H; [reflexivity|].
  cbn [List.length seq map]. rewrite (H 0 x eq_refl). f_equal.
  rewrite <- seq_shift, map_map. apply IH.
  intros i a Hi. apply (H (S i) a Hi).
Qed.

(** A run of [main] that finds old content in the file ends with the same
    file and the same history as a run that finds none. *)
Lemma main_old_file (env_clock : nat -> tm) (old : string) :
  logfile (snd (main (set_logfile old (start env_clock))))
  = logfile (snd (main (start env_clock)))
  /\ reads (snd (main (set_logfile old (start env_clock))))
     = reads (snd (main (start env_clock))).
Proof.
  unfold main.
  destruct (main_with_world totalSamples (set_logfile old (start env_clock)))
    as (L & _ & R & _).
  destruct (main_with_world totalSamples (start env_clock)) as (L' & _ & R' & _).
  rewrite L, L', R, R'.
  rewrite (samples_from_same_inputs main_manager totalSamples 0.0%float
             (set_logfile old (start env_clock)) (start env_clock))
    by (repeat split).
  split; [reflexivity|].
  apply read_each_same_reads; repeat split.
Qed.

(** The samples of [main], each from the final world: its time is the whole
    number of its pass, its timestamps are the clock readings [2 i] and
    [2 i + 1], its readings the values of calls [2 i] and [2 i + 1]. *)
Lemma main_sample_explicit (env_clock : nat -> tm) (i : nat) (r : Sample) :
  (forall k, valid_tm (env_clock k)) ->
  nth_error (samples_from main_manager totalSamples 0.0%float (start env_clock)) i
  = Some r ->
  r = {| at_time := whole_seconds i;
         file_stamp := HH_MM_SS (env_clock (2 * i));
         console_stamp := HH_MM_SS (env_clock (2 * i + 1));
         readings := [reading_at (snd (main (start env_clock))) (2 * i);
                      reading_at (snd (main (start env_clock))) (2 * i + 1)] |}.
Proof.
  intros V Hi.
  assert (Hlt : i < totalSamples).
  { rewrite <- (samples_from_length main_manager totalSamples 0.0%float
                  (start env_clock)).
    apply nth_error_Some. congruence. }
  apply main_sample in Hi. destruct Hi as (t & p & Hr & Ht & Hf & Hc & R0 & R1).
  unfold reading_at, main.
  rewrite (nth_error_nth _ _ _ R0), (nth_error_nth _ _ _ R1). cbn [snd].
  destruct r as [tm0 fs cs rd]. cbn [at_time file_stamp console_stamp readings] in *.
  subst. rewrite !strftime_HMS_spec by apply V.
  now rewrite elapsed_whole.
Qed.

Lemma main_rows_explicit (env_clock : nat -> tm) :
  (forall k, valid_tm (env_clock k)) ->
  samples_from main_manager totalSamples 0.0%float (start env_clock)
  = map (fun i =>
           {| at_time := whole_seconds i;
              file_stamp := HH_MM_SS (env_clock (2 * i));
              console_stamp := HH_MM_SS (env_clock (2 * i + 1));
              readings := [reading_at (snd (main (start env_clock))) (2 * i);
                           reading_at (snd (main (start env_clock))) (2 * i + 1)] |})
        (seq 0 20).
Proof.
  intro V.
  rewrite <- (map_id (samples_from main_manager totalSamples 0.0%float
                        (start env_clock))) at 1.
  rewrite (map_by_index (fun r => r) _
             (fun i =>
                {| at_time := whole_seconds i;
                   file_stamp := HH_MM_SS (env_clock (2 * i));
                   console_stamp := HH_MM_SS (env_clock (2 * i + 1));
                   readings := [reading_at (snd (main (start env_clock))) (2 * i);
                                reading_at (snd (main (start env_clock)))
                                           (2 * i + 1)] |})).
  - now rewrite samples_from_length.
  - intros i r Hi. now apply main_sample_explicit.
Qed.

Lemma main_reads_order (env_clock : nat -> tm) :
  map fst (reads (snd (main (start env_clock))))
  = List.concat (repeat [TemperatureSensor; PressureSensor] 20).
Proof.
  unfold main. rewrite main_with_reads, read_each_reads. cbn [start reads app].
  apply map_fst_combine, read_each_length.
Qed.

Lemma HH_MM_SS_inj (t1 t2 : tm) :
  valid_tm t1 -> valid_tm t2 -> HH_MM_SS t1 = HH_MM_SS t2 -> t1 = t2.
Proof.
  intros V1 V2 H. apply strftime_HMS_inj; try assumption.
  now rewrite !strftime_HMS_spec.
Qed.

(** C7 (as amended): to the console, one pass of the loop writes one line:
    an opening bracket, the time of day [HH:MM:SS] the clock shows at the
    pass's second reading, a closing bracket and one space; then for each
    registered sensor, in registration order, its label, a colon and one
    space, its reading with two decimals and two spaces; then the newline.
    [main] writes twenty such lines between its opening and its closing
    message, the [i]-th with the clock reading [2 i + 1] and the values of the
    [readValue] calls [2 i], on the temperature sensor, and [2 i + 1], on the
    pressure sensor. *)
Theorem console_line_per_sample
  (m : SensorManager) (time : double) (w : World) (env_clock : nat -> tm) :
  valid_tm (clock w (S (clock_reads w))) ->
  (forall k, valid_tm (env_clock k)) ->
  cout (snd (sample m time w))
  = (cout w
     ++ ("[" ++ HH_MM_SS (clock w (S (clock_reads w))) ++ "] "
         ++ flatten (map (fun sv => getType (fst sv) ++ ": " ++ fixed2 (snd sv) ++ "  ")
                         (combine (sensors m) (fst (readAll m w)))))
     ++ nl)%string
  /\ let w' := snd (main (start env_clock)) in
     cout w'
     = (cout_banner
        ++ flatten
             (map (fun i =>
                     "[" ++ HH_MM_SS (env_clock (2 * i + 1)) ++ "] "
                     ++ "Temperature" ++ ": " ++ fixed2 (reading_at w' (2 * i)) ++ "  "
                     ++ "Pressure" ++ ": " ++ fixed2 (reading_at w' (2 * i + 1)) ++ "  "
                     ++ nl)
                  (seq 0 20))
        ++ cout_done)%string
     /\ map fst (reads w')
        = List.concat (repeat [TemperatureSensor; PressureSensor] 20).
Proof.
  intros Vw V. split.
  - destruct (sample_fields m time w) as (_ & S2 & _). rewrite S2.
    unfold console_row, console_line, sample_at, console_entry.
    cbn [console_stamp readings].
    rewrite getSensorTypes_map, combine_map_fst, map_map. cbn [fst snd].
    rewrite (strftime_HMS_spec _ Vw).
    now rewrite !append_assoc.
  - intro w'. split; [|apply main_reads_order].
    destruct (main_with_unfold totalSamples env_clock) as (_ & C & _).
    subst w'. unfold main at 1. rewrite C, (main_rows_explicit env_clock V), map_map.
    f_equal. f_equal. f_equal. apply map_ext. intro i.
    unfold console_row, console_line, console_entry.
    change (getSensorTypes main_manager) with ["Temperature"; "Pressure"].
    cbn [console_stamp readings combine map flatten fold_right fst snd].
    now rewrite !append_assoc, ?append_nil_r.
Qed.

(** X12: each pass asks the clock exactly twice, first for the file and
    then for the console: the row it appends carries the time of day of the
    first reading, its console line that of the second, and the two
    timestamps agree exactly when the clock showed the same time of day at
    both readings. *)
Theorem sample_stamps (m : SensorManager) (time : double) (w : World) :
  valid_tm (clock w (clock_reads w)) ->
  valid_tm (clock w (S (clock_reads w))) ->
  logfile (snd (sample m time w))
  = (logfile w
     ++ (fixed2 time ++ "," ++ HH_MM_SS (clock w (clock_reads w))
         ++ flatten (map (fun v => "," ++ fixed2 v) (fst (readAll m w))))
     ++ nl)%string
  /\ cout (snd (sample m time w))
     = (cout w
        ++ ("[" ++ HH_MM_SS (clock w (S (clock_reads w))) ++ "] "
            ++ flatten (map (fun lv => fst lv ++ ": " ++ fixed2 (snd lv) ++ "  ")
                            (combine (getSensorTypes m) (fst (readAll m w)))))
        ++ nl)%string
  /\ clock_reads (snd (sample m time w)) = S (S (clock_reads w))
  /\ (HH_MM_SS (clock w (clock_reads w)) = HH_MM_SS (clock w (S (clock_reads w)))
      <-> clock w (clock_reads w) = clock w (S (clock_reads w))).
Proof.
  intros V0 V1.
  destruct (sample_fields m time w) as (S1 & S2 & _ & _ & _ & S6).
  split; [|split; [|split; [exact S6|]]].
  - rewrite S1. unfold csv_row, csv_line, sample_at.
    cbn [at_time file_stamp readings]. now rewrite (strftime_HMS_spec _ V0).
  - rewrite S2. unfold console_row, console_line, console_entry, sample_at.
    cbn [console_stamp readings]. now rewrite (strftime_HMS_spec _ V1).
  - split; [now apply HH_MM_SS_inj | now intros ->].
Qed.

Section StreamsPlain.

Hypothesis fixed2_plain : forall x : double, plain (fixed2 x) = true.

Lemma samples_stamp_plain (env_clock : nat -> tm) (r : Sample) :
  In r (samples_from main_manager totalSamples 0.0%float (start env_clock)) ->
  plain (file_stamp r) = true.
Proof.
  intro Hr. apply In_nth_error in Hr as [i Hi].
  apply samples_from_nth in Hi. destruct Hi as (_ & -> & _).
  apply strftime_HMS_plain.
Qed.

(** The file of a run of [main], split at its newlines. *)
Lemma main_logfile_lines (env_clock : nat -> tm) :
  split nl_char (logfile (snd (main (start env_clock))))
  = ("Time(s),Timestamp,Temperature(C),Pressure(bar)"
     :: map csv_line
            (samples_from main_manager totalSamples 0.0%float (start env_clock))
     ++ [EmptyString])%list.
Proof.
  destruct (main_with_unfold totalSamples env_clock) as (L & _).
  unfold main. rewrite L. unfold csv_header.
  set (rows := samples_from main_manager totalSamples 0.0%float (start env_clock)).
  replace (map csv_row rows)
    with (map (fun l => l ++ nl)%string (map csv_line rows))
    by (rewrite map_map; reflexivity).
  change (split nl_char
            (flatten (map (fun l => l ++ nl)%string
                          ("Time(s),Timestamp,Temperature(C),Pressure(bar)"
                           :: map csv_line rows)))
          = (("Time(s),Timestamp,Temperature(C),Pressure(bar)"
              :: map csv_line rows) ++ [EmptyString])%list).
  apply split_lines. constructor; [reflexivity|].
  apply Forall_forall. intros l Hl. apply in_map_iff in Hl as (r & <- & Hr).
  apply (csv_line_one_line fixed2_plain). now apply (samples_stamp_plain env_clock).
Qed.

(** C8: whatever [sensor_data.csv] held before, with [totalSamples = 20]
    the file [main] leaves is 21 newline-terminated lines: the header
    [Time(s),Timestamp,Temperature(C),Pressure(bar)], then 20 rows.  Row [i]
    splits at its commas into exactly 4 fields: the whole number [i] of
    elapsed seconds with two decimals, the time of day [HH:MM:SS] of clock
    reading [2 i], and with two decimals the values of the [readValue] calls
    [2 i], on the temperature sensor, and [2 i + 1], on the pressure sensor. *)
Theorem logfile_header_and_rows (env_clock : nat -> tm) (old : string) :
  (forall k, valid_tm (env_clock k)) ->
  let w' := snd (main (set_logfile old (start env_clock))) in
  let row i :=
    (fixed2 (whole_seconds i) ++ "," ++ HH_MM_SS (env_clock (2 * i))
     ++ "," ++ fixed2 (reading_at w' (2 * i))
     ++ "," ++ fixed2 (reading_at w' (2 * i + 1)))%string in
  split nl_char (logfile w')
  = ("Time(s),Timestamp,Temperature(C),Pressure(bar)"
     :: map row (seq 0 20) ++ [EmptyString])%list
  /\ List.length ("Time(s),Timestamp,Temperature(C),Pressure(bar)"
                  :: map row (seq 0 20)) = 21
  /\ map (split comma_char) (map row (seq 0 20))
     = map (fun i => [fixed2 (whole_seconds i); HH_MM_SS (env_clock (2 * i));
                      fixed2 (reading_at w' (2 * i));
                      fixed2 (reading_at w' (2 * i + 1))])
           (seq 0 20)
  /\ map fst (reads w')
     = List.concat (repeat [TemperatureSensor; PressureSensor] 20).
Proof.
  intros V w' row.
  destruct (main_old_file env_clock old) as [Lold Rold].
  assert (Hrow : forall i,
             row i
             = csv_line
                 {| at_time := whole_seconds i;
                    file_stamp := HH_MM_SS (env_clock (2 * i));
                    console_stamp := HH_MM_SS (env_clock (2 * i + 1));
                    readings :=
                      [reading_at (snd (main (start env_clock))) (2 * i);
                       reading_at (snd (main (start env_clock))) (2 * i + 1)] |}).
  { intro i. subst row w'. unfold reading_at. rewrite Rold.
    unfold csv_line. cbn [at_time file_stamp readings map flatten fold_right].
    now rewrite !append_assoc, ?append_nil_r. }
  split; [|split; [|split]].
  - subst w'. rewrite Lold, main_logfile_lines, (main_rows_explicit env_clock V).
    rewrite map_map. do 2 f_equal. apply map_ext. intro i. now rewrite Hrow.
  - cbn [List.length]. now rewrite length_map, length_seq.
  - rewrite map_map. apply map_ext. intro i. rewrite Hrow.
    rewrite (csv_line_fields fixed2_plain).
    + cbn [at_time file_stamp readings map]. unfold reading_at, w'.
      now rewrite Rold.
    + cbn [file_stamp]. rewrite <- (strftime_HMS_spec _ (V (2 * i))).
      apply strftime_HMS_plain.
  - subst w'. rewrite Rold. apply main_reads_order.
Qed.

(** X11: in the file [main] leaves, the [Time(s)] field of the row of pass
    [i] is the whole number [i] with two decimals: adding [dt = 1.0]
    repeatedly to [0.0] accumulates no rounding error over the twenty passes. *)
Theorem main_elapsed_exact (env_clock : nat -> tm) (i : nat) :
  i < totalSamples ->
  exists line,
    nth_error (split nl_char (logfile (snd (main (start env_clock))))) (S i)
    = Some line
    /\ hd_error (split comma_char line) = Some (fixed2 (whole_seconds i)).
Proof.
  intro Hi. rewrite main_logfile_lines. cbn [nth_error].
  destruct (nth_error (samples_from main_manager totalSamples 0.0%float
                         (start env_clock)) i) as [r|] eqn:E.
  - exists (csv_line r). split.
    + rewrite nth_error_app1
        by (rewrite length_map, samples_from_length; exact Hi).
      now apply map_nth_error.
    + rewrite (csv_line_fields fixed2_plain)
        by (apply (samples_stamp_plain env_clock); eapply nth_error_In; eassumption).
      apply samples_from_nth in E. destruct E as (-> & _).
      cbn [hd_error]. f_equal. f_equal. now apply elapsed_whole.
  - apply nth_error_None in E. rewrite samples_from_length in E. lia.
Qed.

End StreamsPlain.

End Streams.




(** * The libstdc++ platform: the premise on formatting, and concrete runs *)

Lemma plain_String (c : ascii) (rest : string) :
  plain (String c rest)
  = negb (Ascii.eqb c comma_char) && negb (Ascii.eqb c nl_char) && plain rest.
Proof.
  unfold plain. cbn [free].
  destruct (Ascii.eqb c comma_char), (Ascii.eqb c nl_char),
    (free comma_char rest), (free nl_char rest); reflexivity.
Qed.

Lemma string_of_uint_plain (u : Decimal.uint) :
  plain (NilEmpty.string_of_uint u) = true.
Proof.
  induction u; cbn [NilEmpty.string_of_uint]; rewrite ?plain_String, ?IHu;
    reflexivity.
Qed.

Lemma decimal_plain (n : N) : plain (Libstdcxx.decimal n) = true.
Proof.
  unfold Libstdcxx.decimal, NilZero.string_of_uint.
  destruct (N.to_uint n); try reflexivity; apply string_of_uint_plain.
Qed.

Lemma libstdcxx_fixed2_plain (x : double) :
  plain (Libstdcxx.fixed2_double x) = true.
Proof.
  unfold Libstdcxx.fixed2_double, Libstdcxx.two_decimals, Libstdcxx.sign_string.
  destruct (Prim2SF x) as [s|s| |s m e]; try destruct s;
    repeat first [ reflexivity | apply decimal_plain | apply plain_append ].
Qed.

(** The run of [main] on this platform, with the clock at noon: the first
    lines of the file and of the console. *)
Example libstdcxx_file_head :
  firstn 3 (split nl_char
              (logfile (snd (@main Libstdcxx.platform (start Libstdcxx.noon)))))
  = ["Time(s),Timestamp,Temperature(C),Pressure(bar)";
     "0.00,12:00:00,21.32,0.93";
     "1.00,12:00:02,24.59,0.99"].
Proof. vm_compute. reflexivity. Qed.

Example libstdcxx_console_head :
  firstn 3 (split nl_char
              (cout (snd (@main Libstdcxx.platform (start Libstdcxx.noon)))))
  = ["Logging sensor data to sensor_data.csv ...";
     "[12:00:01] Temperature: 21.32  Pressure: 0.93  ";
     "[12:00:03] Temperature: 24.59  Pressure: 0.99  "].
Proof. vm_compute. reflexivity. Qed.

(** All forty readings of that run lie in the interval of their class. *)
Example libstdcxx_run_in_bounds :
  forallb Demo.in_bounds
          (reads (snd (@main Libstdcxx.platform (start Libstdcxx.noon))))
  = true.
Proof. vm_compute. reflexivity. Qed.

(** In binary64 the map [u * (b - a) + a] of the distribution sends the
    largest canonical value below one to the upper bound 30.0 itself: that a
    reading stays below its upper bound rests on which canonical values the
    engine reaches and on rounding, not on the canonical value being below
    one. *)
Remark affine_map_rounds_to_upper_bound :
  PrimFloat.add
    (PrimFloat.mul Libstdcxx.below_one (PrimFloat.sub 30.0%float 20.0%float))
    20.0%float
  = 30.0%float.
Proof. vm_compute. reflexivity. Qed.

(** The elapsed times of the twenty passes are 0.0, 1.0, ..., 19.0 exactly. *)
Example elapsed_whole_seconds :
  map elapsed (seq 0 20)
  = map (fun i => PrimFloat.of_uint63 (Uint63.of_Z (Z.of_nat i))) (seq 0 20).
Proof. vm_compute. reflexivity. Qed.

(** * Readings on libstdc++ stay in the interval of their class *)

Section Binary64.

Local Open Scope Z_scope.

(** ** Rounding to binary64

    The operations of [PrimFloat] are specified by [SpecFloat]'s functions on
    mantissa and exponent.  On positive normal numbers each of them returns
    a positive normal number within a factor [1 +- 2^-51] of the exact
    result; with the constants of the program that is enough to place every
    reading strictly inside its interval. *)

(** The number of binary digits of [p]. *)
Lemma digits2_pos_bounds (p : positive) :
  2 ^ (Zpos (digits2_pos p) - 1) <= Zpos p < 2 ^ Zpos (digits2_pos p).
Proof.
  induction p as [p IH|p IH|]; cbn [digits2_pos].
  - rewrite Pos2Z.inj_succ.
    replace (Z.succ (Zpos (digits2_pos p)) - 1) with (Z.succ (Zpos (digits2_pos p) - 1)) by lia.
    rewrite !Z.pow_succ_r by lia. lia.
  - rewrite Pos2Z.inj_succ.
    replace (Z.succ (Zpos (digits2_pos p)) - 1) with (Z.succ (Zpos (digits2_pos p) - 1)) by lia.
    rewrite !Z.pow_succ_r by lia. lia.
  - cbn. lia.
Qed.

Lemma digits2_pos_unique (p : positive) (k : Z) :
  2 ^ (k - 1) <= Zpos p < 2 ^ k -> 0 < k -> Zpos (digits2_pos p) = k.
Proof.
  intros [Hlo Hhi] Hk.
  destruct (digits2_pos_bounds p) as [Dlo Dhi].
  assert (A : k - 1 < Zpos (digits2_pos p)).
  { apply (Z.pow_lt_mono_r_iff 2); lia. }
  assert (B : Zpos (digits2_pos p) - 1 < k).
  { apply (Z.pow_lt_mono_r_iff 2); lia. }
  lia.
Qed.

Lemma shr_1_m (mrs : shr_record) :
  0 <= shr_m mrs -> shr_m (shr_1 mrs) = shr_m mrs / 2.
Proof.
  destruct mrs as [m r s]. cbn [shr_m]. intro H.
  destruct m as [|p|p]; [reflexivity| |lia].
  destruct p as [p|p|]; cbn [shr_1 shr_m].
  - rewrite Pos2Z.inj_xI. apply Z.div_unique with 1; lia.
  - rewrite Pos2Z.inj_xO. apply Z.div_unique with 0; lia.
  - reflexivity.
Qed.

Lemma pow2_xO (p : positive) : 2 ^ Zpos p~0 = 2 ^ Zpos p * 2 ^ Zpos p.
Proof.
  replace (Zpos p~0) with (Zpos p + Zpos p) by lia.
  apply Z.pow_add_r; lia.
Qed.

Lemma pow2_xI (p : positive) : 2 ^ Zpos p~1 = 2 * (2 ^ Zpos p * 2 ^ Zpos p).
Proof.
  replace (Zpos p~1) with (1 + (Zpos p + Zpos p)) by lia.
  rewrite Z.pow_add_r, Z.pow_add_r by lia. reflexivity.
Qed.

Lemma pow2_pos (n : Z) : 0 <= n -> 0 < 2 ^ n.
Proof. intro H. apply Z.pow_pos_nonneg; lia. Qed.

Lemma iter_shr_1_m (p : positive) (mrs : shr_record) :
  0 <= shr_m mrs ->
  shr_m (iter_pos shr_1 p mrs) = shr_m mrs / 2 ^ Zpos p.
Proof.
  revert mrs; induction p as [p IH|p IH|]; intros mrs H; cbn [iter_pos].
  - pose proof (pow2_pos (Zpos p) ltac:(lia)) as Hp.
    assert (H1 : 0 <= shr_m (shr_1 mrs)) by (rewrite shr_1_m by lia; apply Z.div_pos; lia).
    assert (H2 : 0 <= shr_m (iter_pos shr_1 p (shr_1 mrs)))
      by (rewrite IH by lia; apply Z.div_pos; lia).
    rewrite IH, IH, shr_1_m by lia.
    rewrite !Z.div_div by lia. now rewrite pow2_xI.
  - pose proof (pow2_pos (Zpos p) ltac:(lia)) as Hp.
    assert (H2 : 0 <= shr_m (iter_pos shr_1 p mrs))
      by (rewrite IH by lia; apply Z.div_pos; lia).
    rewrite IH, IH by lia. rewrite Z.div_div by lia. now rewrite pow2_xO.
  - rewrite shr_1_m by lia. reflexivity.
Qed.

Lemma shr_m_shr (mrs : shr_record) (e n : Z) :
  0 <= shr_m mrs -> 0 <= n ->
  shr_m (fst (shr mrs e n)) = shr_m mrs / 2 ^ n /\ snd (shr mrs e n) = e + n.
Proof.
  intros H Hn. destruct n as [|p|p]; cbn [shr fst snd]; [|split; [apply iter_shr_1_m; lia|reflexivity]|lia].
  split; [now rewrite Z.div_1_r|lia].
Qed.

Lemma shr_m_of_loc (m : Z) (l : location) : shr_m (shr_record_of_loc m l) = m.
Proof. destruct l as [|[]]; reflexivity. Qed.

Lemma round_nearest_even_bounds (m : Z) (l : location) :
  m <= round_nearest_even m l <= m + 1.
Proof. destruct l as [|[]]; cbn [round_nearest_even]; try lia. destruct (Z.even m); lia. Qed.

Lemma fexp_normal (k : Z) : -1021 <= k -> fexp 53 1024 k = k - 53.
Proof. intro H. unfold fexp, emin. lia. Qed.

(** Rounding a mantissa of [d >= 53] digits drops [d - 53] of them: the
    result has a 53-digit mantissa between the truncated one and its
    successor. *)
Lemma binary_round_aux_pos (p : positive) (ex : Z) (lx : location) :
  53 <= Zpos (digits2_pos p) -> -1074 <= ex ->
  ex + Zpos (digits2_pos p) - 52 <= 971 ->
  exists m e,
    binary_round_aux 53 1024 false (Zpos p) ex lx = S754_finite false m e
    /\ 2 ^ 52 <= Zpos m < 2 ^ 53
    /\ ex + (Zpos (digits2_pos p) - 53) <= e <= ex + (Zpos (digits2_pos p) - 53) + 1
    /\ Zpos p - 2 ^ (Zpos (digits2_pos p) - 53)
       <= Zpos m * 2 ^ (e - ex)
       <= Zpos p + 2 ^ (Zpos (digits2_pos p) - 53).
Proof.
  intros Hd Hex Hmax.
  set (d := Zpos (digits2_pos p)) in *.
  set (n := d - 53).
  destruct (digits2_pos_bounds p) as [Plo Phi]. fold d in Plo, Phi.
  assert (Hn : 0 <= n) by (unfold n; lia).
  assert (P2n : 0 < 2 ^ n) by (apply pow2_pos; lia).
  assert (Esplit : 2 ^ (d - 1) = 2 ^ n * 2 ^ 52).
  { rewrite <- Z.pow_add_r by lia. f_equal. unfold n. lia. }
  assert (Esplit' : 2 ^ d = 2 ^ n * 2 ^ 53).
  { rewrite <- Z.pow_add_r by lia. f_equal. unfold n. lia. }
  unfold binary_round_aux, shr_fexp.
  change (Zdigits2 (Zpos p)) with d.
  rewrite (fexp_normal (d + ex)) by lia.
  replace (d + ex - 53 - ex) with n by (unfold n; lia).
  destruct (shr_m_shr (shr_record_of_loc (Zpos p) lx) ex n) as [Hm1 He1];
    [rewrite shr_m_of_loc; lia | lia |].
  rewrite shr_m_of_loc in Hm1.
  destruct (shr (shr_record_of_loc (Zpos p) lx) ex n) as [mrs' e'].
  cbn [fst snd] in Hm1, He1. subst e'.
  set (m1 := Zpos p / 2 ^ n) in *.
  assert (M1lo : 2 ^ 52 <= m1) by (apply Z.div_le_lower_bound; lia).
  assert (M1hi : m1 < 2 ^ 53) by (apply Z.div_lt_upper_bound; lia).
  assert (M1a : 2 ^ n * m1 <= Zpos p) by (apply Z.mul_div_le; lia).
  assert (M1b : Zpos p < 2 ^ n * Z.succ m1) by (apply Z.mul_succ_div_gt; lia).
  pose proof (round_nearest_even_bounds (shr_m mrs') (loc_of_shr_record mrs')) as Hr.
  rewrite Hm1 in *.
  set (m2 := round_nearest_even m1 (loc_of_shr_record mrs')) in *.
  assert (M2pos : 0 < m2) by lia.
  destruct m2 as [|p2|p2] eqn:Em2; try lia.
  cbn [Zdigits2].
  destruct (Z_lt_le_dec (Zpos p2) (2 ^ 53)) as [Hlt|Hge].
  - assert (D2 : Zpos (digits2_pos p2) = 53) by (apply digits2_pos_unique; lia).
    rewrite D2, (fexp_normal (53 + (ex + n))) by lia.
    replace (53 + (ex + n) - 53 - (ex + n)) with 0 by lia.
    cbn [shr shr_record_of_loc shr_m].
    replace (ex + n <=? 1024 - 53) with true by (symmetry; apply Z.leb_le; unfold n; lia).
    exists p2, (ex + n). split; [reflexivity|]. split; [lia|]. split; [lia|].
    replace (ex + n - ex) with n by lia. nia.
  - assert (E2 : Zpos p2 = 2 ^ 53) by lia.
    assert (D2 : Zpos (digits2_pos p2) = 54).
    { apply digits2_pos_unique; [|lia]. rewrite E2. change (2 ^ (54 - 1)) with (2 ^ 53).
      split; [lia|]. apply Z.pow_lt_mono_r; lia. }
    rewrite D2, (fexp_normal (54 + (ex + n))) by lia.
    replace (54 + (ex + n) - 53 - (ex + n)) with 1 by lia.
    cbn [shr shr_record_of_loc iter_pos].
    injection E2 as ->. cbn [shr_1 shr_m].
    replace (ex + n + 1 <=? 1024 - 53) with true
      by (symmetry; apply Z.leb_le; unfold n; lia).
    eexists _, (ex + n + 1). split; [reflexivity|].
    split; [cbn; lia|]. split; [lia|].
    replace (ex + n + 1 - ex) with (n + 1) by lia.
    rewrite Z.pow_add_r by lia. change (2 ^ 1) with 2.
    assert (E2' : m1 + 1 = 2 ^ 53) by (change (2 ^ 53) with 9007199254740992 in *; lia).
    change (Zpos (2 ^ 52)%positive) with (2 ^ 52). 
    change (2 ^ 53) with (2 * 2 ^ 52) in E2'. nia.
Qed.

Local Open Scope R_scope.


Lemma powerRZ_pow2 (k : Z) : (0 <= k)%Z -> powerRZ 2 k = IZR (2 ^ k).
Proof.
  intro H. rewrite <- (Z2Nat.id k H) at 1.
  rewrite <- pow_powerRZ, pow_IZR. now rewrite Z2Nat.id.
Qed.

Lemma powerRZ_2_pos (k : Z) : 0 < powerRZ 2 k.
Proof. apply powerRZ_lt. lra. Qed.

Lemma powerRZ_2_add (a b : Z) : powerRZ 2 (a + b) = powerRZ 2 a * powerRZ 2 b.
Proof. apply powerRZ_add. lra. Qed.

Lemma F2R_shift (m e ex : Z) :
  (ex <= e)%Z -> F2R m e = IZR (m * 2 ^ (e - ex)) * powerRZ 2 ex.
Proof.
  intro H. unfold F2R. replace e with ((e - ex) + ex)%Z at 1 by lia.
  rewrite powerRZ_2_add, powerRZ_pow2 by lia. rewrite mult_IZR. ring.
Qed.

(** The result of rounding a positive mantissa of at least 53 bits: a normal
    number within a factor [1 +- 2^-52] of the value rounded. *)
Lemma binary_round_aux_value (p : positive) (ex : Z) (lx : location) :
  (53 <= Zpos (digits2_pos p))%Z -> (-1074 <= ex)%Z ->
  (ex + Zpos (digits2_pos p) - 52 <= 971)%Z ->
  exists m e,
    binary_round_aux 53 1024 false (Zpos p) ex lx = S754_finite false m e
    /\ (2 ^ 52 <= Zpos m < 2 ^ 53)%Z
    /\ (ex + (Zpos (digits2_pos p) - 53) <= e
        <= ex + (Zpos (digits2_pos p) - 53) + 1)%Z
    /\ F2R (Zpos p) ex * (1 - / 4503599627370496)
       <= F2R (Zpos m) e
       <= F2R (Zpos p) ex * (1 + / 4503599627370496).
Proof.
  intros Hd Hex Hmax.
  destruct (binary_round_aux_pos p ex lx Hd Hex Hmax) as (m & e & E & Hm & He & HM).
  exists m, e. split; [exact E|]. split; [exact Hm|]. split; [exact He|].
  destruct (digits2_pos_bounds p) as [Plo _].
  set (n := (Zpos (digits2_pos p) - 53)%Z) in *.
  assert (Hn : (0 <= n)%Z) by (unfold n; lia).
  assert (Esplit : (2 ^ (Zpos (digits2_pos p) - 1) = 2 ^ n * 2 ^ 52)%Z).
  { rewrite <- Z.pow_add_r by lia. f_equal. unfold n. lia. }
  rewrite Esplit in Plo.
  rewrite (F2R_shift (Zpos m) e ex) by lia. unfold F2R.
  pose proof (powerRZ_2_pos ex) as Hpos.
  set (M := (Zpos m * 2 ^ (e - ex))%Z) in *.
  assert (B1 : IZR (Zpos p) - IZR (2 ^ n) <= IZR M).
  { rewrite <- minus_IZR. apply IZR_le. lia. }
  assert (B2 : IZR M <= IZR (Zpos p) + IZR (2 ^ n)).
  { rewrite <- plus_IZR. apply IZR_le. lia. }
  assert (B3 : IZR (2 ^ n) * 4503599627370496 <= IZR (Zpos p)).
  { rewrite <- mult_IZR. apply IZR_le. change (2 ^ 52)%Z with 4503599627370496%Z in Plo. lia. }
  assert (B4 : IZR (2 ^ n) <= IZR (Zpos p) * / 4503599627370496) by lra.
  split.
  - apply Rle_trans with ((IZR (Zpos p) - IZR (2 ^ n)) * powerRZ 2 ex).
    + replace (IZR (Zpos p) * powerRZ 2 ex * (1 - / 4503599627370496))
        with ((IZR (Zpos p) - IZR (Zpos p) * / 4503599627370496) * powerRZ 2 ex) by ring.
      apply Rmult_le_compat_r; lra.
    + apply Rmult_le_compat_r; lra.
  - apply Rle_trans with ((IZR (Zpos p) + IZR (2 ^ n)) * powerRZ 2 ex).
    + apply Rmult_le_compat_r; lra.
    + replace (IZR (Zpos p) * powerRZ 2 ex * (1 + / 4503599627370496))
        with ((IZR (Zpos p) + IZR (Zpos p) * / 4503599627370496) * powerRZ 2 ex) by ring.
      apply Rmult_le_compat_r; lra.
Qed.

(** ** Positive normal numbers *)
Lemma NP_pos (lo hi : Z) (x : spec_float) (v : R) : NP lo hi x v -> 0 < v.
Proof.
  intros (m & e & _ & _ & _ & ->). unfold F2R.
  apply Rmult_lt_0_compat; [apply IZR_lt; lia | apply powerRZ_2_pos].
Qed.

Lemma NP_weaken (lo hi lo' hi' : Z) (x : spec_float) (v : R) :
  NP lo hi x v -> (lo' <= lo)%Z -> (hi <= hi')%Z -> NP lo' hi' x v.
Proof.
  intros (m & e & E & Hm & He & Hv) Hlo Hhi. exists m, e. repeat split; try assumption; lia.
Qed.

Lemma digits_ge (p : positive) (k : Z) :
  (2 ^ k <= Zpos p)%Z -> (0 <= k)%Z -> (k < Zpos (digits2_pos p))%Z.
Proof.
  intros H Hk. destruct (digits2_pos_bounds p) as [_ Hhi].
  apply (Z.pow_lt_mono_r_iff 2); lia.
Qed.

Lemma digits_le (p : positive) (k : Z) :
  (Zpos p < 2 ^ k)%Z -> (0 <= k)%Z -> (Zpos (digits2_pos p) <= k)%Z.
Proof.
  intros H Hk. destruct (digits2_pos_bounds p) as [Hlo _].
  assert (Zpos (digits2_pos p) - 1 < k)%Z; [|lia].
  apply (Z.pow_lt_mono_r_iff 2); lia.
Qed.

Lemma eta_le_eps (X v : R) :
  0 <= X ->
  X * (1 - / 4503599627370496) <= v <= X * (1 + / 4503599627370496) ->
  X * (1 - / 2251799813685248) <= v <= X * (1 + / 2251799813685248).
Proof. intros HX [A B]. split; nra. Qed.

(** Multiplication of two positive normal numbers. *)
Lemma SFmul_NP (l1 h1 l2 h2 : Z) (x y : spec_float) (vx vy : R) :
  NP l1 h1 x vx -> NP l2 h2 y vy ->
  (-1074 <= l1 + l2)%Z -> (h1 + h2 + 54 <= 971)%Z ->
  exists vz,
    NP (l1 + l2 + 52) (h1 + h2 + 54) (SFmul 53 1024 x y) vz
    /\ vx * vy * (1 - / 2251799813685248) <= vz
       <= vx * vy * (1 + / 2251799813685248).
Proof.
  intros (mx & ex & -> & Hmx & Hex & ->) (my & ey & -> & Hmy & Hey & ->) Hlo Hhi.
  cbn [SFmul xorb].
  assert (Plo : (2 ^ 104 <= Zpos (mx * my))%Z).
  { rewrite Pos2Z.inj_mul. change (2 ^ 104)%Z with (2 ^ 52 * 2 ^ 52)%Z. nia. }
  assert (Phi : (Zpos (mx * my) < 2 ^ 106)%Z).
  { rewrite Pos2Z.inj_mul. change (2 ^ 106)%Z with (2 ^ 53 * 2 ^ 53)%Z. nia. }
  pose proof (digits_ge _ 104 Plo ltac:(lia)) as D1.
  pose proof (digits_le _ 106 Phi ltac:(lia)) as D2.
  destruct (binary_round_aux_value (mx * my) (ex + ey) loc_Exact)
    as (m & e & E & Hm & He & Hv); try lia.
  exists (F2R (Zpos m) e). split.
  - exists m, e. repeat split; try assumption; lia.
  - assert (EV : F2R (Zpos (mx * my)) (ex + ey) = F2R (Zpos mx) ex * F2R (Zpos my) ey).
    { unfold F2R. rewrite Pos2Z.inj_mul, mult_IZR, powerRZ_2_add. ring. }
    rewrite EV in Hv. apply eta_le_eps; [|exact Hv].
    apply Rmult_le_pos; unfold F2R; apply Rmult_le_pos;
      try (apply IZR_le; lia); apply Rlt_le, powerRZ_2_pos.
Qed.

Lemma iter_xO_value (m d : positive) :
  (Zpos (Pos.iter xO m d) = Zpos m * 2 ^ Zpos d)%Z.
Proof.
  induction d as [|d IH] using Pos.peano_ind.
  - cbn [Pos.iter]. lia.
  - rewrite Pos.iter_succ, Pos2Z.inj_xO, IH, Pos2Z.inj_succ, Z.pow_succ_r by lia. lia.
Qed.

Lemma shl_align_value (mx : positive) (ex ez : Z) :
  (ez <= ex)%Z ->
  (Zpos (fst (shl_align mx ex ez)) = Zpos mx * 2 ^ (ex - ez))%Z.
Proof.
  intro H. unfold shl_align.
  destruct (ez - ex)%Z as [|d|d] eqn:E; cbn [fst]; try lia.
  - replace (ex - ez)%Z with 0%Z by lia. lia.
  - rewrite iter_xO_value. f_equal. f_equal. lia.
Qed.

(** A mantissa of at least 53 digits is rounded as it stands. *)
Lemma binary_round_big (s : positive) (ez : Z) :
  (53 <= Zpos (digits2_pos s))%Z -> (-1021 <= Zpos (digits2_pos s) + ez)%Z ->
  binary_round 53 1024 false s ez
  = binary_round_aux 53 1024 false (Zpos s) ez loc_Exact.
Proof.
  intros Hd Hr. unfold binary_round, shl_align.
  rewrite fexp_normal by lia.
  destruct (Zpos (digits2_pos s) + ez - 53 - ez)%Z eqn:E; try reflexivity. lia.
Qed.

(** Addition of two positive normal numbers. *)
Lemma SFadd_NP (l1 h1 l2 h2 : Z) (x y : spec_float) (vx vy : R) :
  NP l1 h1 x vx -> NP l2 h2 y vy ->
  (-1074 <= l1)%Z -> (-1074 <= l2)%Z -> (h1 + 2 <= 971)%Z -> (h2 + 2 <= 971)%Z ->
  exists vz,
    NP (Z.max l1 l2) (Z.max h1 h2 + 2) (SFadd 53 1024 x y) vz
    /\ (vx + vy) * (1 - / 2251799813685248) <= vz
       <= (vx + vy) * (1 + / 2251799813685248).
Proof.
  intros (mx & ex & -> & Hmx & Hex & ->) (my & ey & -> & Hmy & Hey & ->) L1 L2 H1 H2.
  cbn [SFadd cond_Zopp].
  set (ez := Z.min ex ey).
  assert (Hzx : (ez <= ex)%Z) by (unfold ez; lia).
  assert (Hzy : (ez <= ey)%Z) by (unfold ez; lia).
  pose proof (shl_align_value mx ex ez Hzx) as Ax.
  pose proof (shl_align_value my ey ez Hzy) as Ay.
  set (ax := fst (shl_align mx ex ez)) in *.
  set (ay := fst (shl_align my ey ez)) in *.
  change (Zpos ax + Zpos ay)%Z with (Zpos (ax + ay)).
  cbn [binary_normalize].
  assert (Px : (0 < 2 ^ (ex - ez))%Z) by (apply pow2_pos; lia).
  assert (Py : (0 < 2 ^ (ey - ez))%Z) by (apply pow2_pos; lia).
  set (D := (Z.max ex ey - ez)%Z).
  assert (HD : (0 <= D)%Z) by (unfold D; lia).
  assert (PD : (0 < 2 ^ D)%Z) by (apply pow2_pos; lia).
  assert (Slo : (2 ^ (52 + D) <= Zpos (ax + ay))%Z).
  { rewrite Pos2Z.inj_add, Ax, Ay, Z.pow_add_r by lia.
    unfold D. destruct (Z_le_gt_dec ex ey) as [Hc|Hc].
    - rewrite Z.max_r by lia. nia.
    - rewrite Z.max_l by lia. nia. }
  assert (Shi : (Zpos (ax + ay) < 2 ^ (54 + D))%Z).
  { rewrite Pos2Z.inj_add, Ax, Ay, Z.pow_add_r by lia.
    change (2 ^ 54)%Z with (2 * 2 ^ 53)%Z.
    assert (Mx : (2 ^ (ex - ez) <= 2 ^ D)%Z) by (apply Z.pow_le_mono_r; unfold D; lia).
    assert (My : (2 ^ (ey - ez) <= 2 ^ D)%Z) by (apply Z.pow_le_mono_r; unfold D; lia).
    nia. }
  pose proof (digits_ge _ (52 + D) Slo ltac:(lia)) as D1.
  pose proof (digits_le _ (54 + D) Shi ltac:(lia)) as D2.
  rewrite binary_round_big by (unfold D, ez in *; lia).
  destruct (binary_round_aux_value (ax + ay) ez loc_Exact)
    as (m & e & E & Hm & He & Hv); try (unfold D, ez in *; lia).
  exists (F2R (Zpos m) e). split.
  - exists m, e. repeat split; try assumption; unfold D, ez in *; lia.
  - assert (EV : F2R (Zpos (ax + ay)) ez = F2R (Zpos mx) ex + F2R (Zpos my) ey).
    { rewrite (F2R_shift (Zpos mx) ex ez), (F2R_shift (Zpos my) ey ez) by lia.
      unfold F2R. rewrite Pos2Z.inj_add, Ax, Ay, plus_IZR. ring. }
    rewrite EV in Hv. apply eta_le_eps; [|exact Hv].
    apply Rplus_le_le_0_compat; unfold F2R; apply Rmult_le_pos;
      try (apply IZR_le; lia); apply Rlt_le, powerRZ_2_pos.
Qed.

(** Division of two positive normal numbers. *)
Lemma SFdiv_NP (l1 h1 l2 h2 : Z) (x y : spec_float) (vx vy : R) :
  NP l1 h1 x vx -> NP l2 h2 y vy ->
  (-1021 <= l1 - h2 - 53)%Z -> (h1 - l2 - 51 <= 971)%Z ->
  exists vz,
    NP (l1 - h2 - 53) (h1 - l2 - 51) (SFdiv 53 1024 x y) vz
    /\ vx / vy * (1 - / 2251799813685248) <= vz
       <= vx / vy * (1 + / 2251799813685248).
Proof.
  intros (mx & ex & -> & Hmx & Hex & ->) (my & ey & -> & Hmy & Hey & ->) Hlo Hhi.
  cbn [SFdiv xorb]. unfold SFdiv_core_binary. cbn [Zdigits2].
  rewrite (digits2_pos_unique mx 53), (digits2_pos_unique my 53) by (cbn; lia).
  rewrite fexp_normal by lia.
  replace (Z.min (53 + ex - (53 + ey) - 53) (ex - ey))%Z with (ex - ey - 53)%Z by lia.
  replace (ex - ey - (ex - ey - 53))%Z with 53%Z by lia.
  set (e' := (ex - ey - 53)%Z).
  rewrite Z.shiftl_mul_pow2 by lia.
  set (m' := (Zpos mx * 2 ^ 53)%Z).
  assert (Eq : (fst (Z.div_eucl m' (Zpos my)) = m' / Zpos my)%Z) by reflexivity.
  destruct (Z.div_eucl m' (Zpos my)) as [q r]. cbn [fst] in Eq. subst q.
  set (q := (m' / Zpos my)%Z).
  assert (Qlo : (2 ^ 52 <= q)%Z).
  { apply Z.div_le_lower_bound; [lia|]. unfold m'.
    change (2 ^ 53)%Z with 9007199254740992%Z in *.
    change (2 ^ 52)%Z with 4503599627370496%Z in *. nia. }
  assert (Qhi : (q < 2 ^ 54)%Z).
  { apply Z.div_lt_upper_bound; [lia|]. unfold m'.
    change (2 ^ 54)%Z with 18014398509481984%Z.
    change (2 ^ 53)%Z with 9007199254740992%Z in *.
    change (2 ^ 52)%Z with 4503599627370496%Z in *. nia. }
  assert (Qa : (Zpos my * q <= m')%Z) by (apply Z.mul_div_le; lia).
  assert (Qb : (m' < Zpos my * Z.succ q)%Z) by (apply Z.mul_succ_div_gt; lia).
  destruct q as [|pq|pq] eqn:Eq; try lia.
  pose proof (digits_ge pq 52 Qlo ltac:(lia)) as D1.
  pose proof (digits_le pq 54 Qhi ltac:(lia)) as D2.
  destruct (binary_round_aux_value pq e' (new_location (Zpos my) r))
    as (m & e & E & Hm & He & Hv); try (unfold e'; lia).
  exists (F2R (Zpos m) e). split.
  - exists m, e. repeat split; try assumption; unfold e' in *; lia.
  - set (U := powerRZ 2 e') in *.
    assert (HU : 0 < U) by apply powerRZ_2_pos.
    assert (HY : 0 < powerRZ 2 ey) by apply powerRZ_2_pos.
    assert (Ex : powerRZ 2 ex = 9007199254740992 * U * powerRZ 2 ey).
    { unfold U. replace ex with (53 + e' + ey)%Z by (unfold e'; lia).
      rewrite !powerRZ_2_add. rewrite (powerRZ_pow2 53) by lia.
      change (2 ^ 53)%Z with 9007199254740992%Z. ring. }
    set (v := F2R (Zpos mx) ex / F2R (Zpos my) ey).
    assert (Hmy0 : 0 < IZR (Zpos my)) by (apply IZR_lt; lia).
    assert (Ev : v * IZR (Zpos my) = IZR (Zpos mx) * 9007199254740992 * U).
    { unfold v, F2R. rewrite Ex. field. split; lra. }
    assert (Q1 : IZR (Zpos my) * IZR (Zpos pq) <= IZR (Zpos mx) * 9007199254740992).
    { rewrite <- !mult_IZR. apply IZR_le. unfold m' in Qa.
      change (2 ^ 53)%Z with 9007199254740992%Z in Qa. lia. }
    assert (Q2 : IZR (Zpos mx) * 9007199254740992 < IZR (Zpos my) * (IZR (Zpos pq) + 1)).
    { rewrite <- (plus_IZR _ 1), <- !mult_IZR. apply IZR_lt. unfold m' in Qb.
      change (2 ^ 53)%Z with 9007199254740992%Z in Qb. lia. }
    assert (Q3 : 4503599627370496 <= IZR (Zpos pq)).
    { apply IZR_le. change (2 ^ 52)%Z with 4503599627370496%Z in Qlo. lia. }
    assert (V1 : IZR (Zpos pq) * U <= v).
    { apply Rmult_le_reg_r with (IZR (Zpos my)); [lra|]. rewrite Ev. nra. }
    assert (V2 : v < (IZR (Zpos pq) + 1) * U).
    { apply Rmult_lt_reg_r with (IZR (Zpos my)); [lra|]. rewrite Ev. nra. }
    set (r' := F2R (Zpos m) e) in *.
    unfold F2R in Hv. fold U in Hv.
    assert (HQ : 0 < IZR (Zpos pq) * U) by (apply Rmult_lt_0_compat; lra).
    assert (U1 : U * 4503599627370496 <= IZR (Zpos pq) * U) by nra.
    replace (/ 2251799813685248) with (2 * / 4503599627370496) by lra.
    set (eta := / 4503599627370496) in *.
    assert (Heta : eta * 4503599627370496 = 1) by (unfold eta; lra).
    assert (Heta0 : 0 < eta) by (unfold eta; lra).
    assert (Heta1 : eta < 1 / 4) by (unfold eta; lra).
    set (Q := IZR (Zpos pq) * U) in *.
    assert (U2 : U <= Q * eta).
    { replace U with (U * 4503599627370496 * eta) by (rewrite Rmult_assoc, (Rmult_comm _ eta), Heta; ring).
      apply Rmult_le_compat_r; lra. }
    assert (V3 : v <= Q * (1 + eta)).
    { replace ((IZR (Zpos pq) + 1) * U) with (Q + U) in V2 by (unfold Q; ring). lra. }
    assert (V4 : v * (1 - 2 * eta) <= Q * (1 + eta) * (1 - 2 * eta)).
    { apply Rmult_le_compat_r; lra. }
    assert (V5 : Q * (1 + eta) * (1 - 2 * eta) <= Q * (1 - eta)).
    { rewrite Rmult_assoc. apply Rmult_le_compat_l; [lra|]. nra. }
    assert (V6 : Q * (1 + eta) <= v * (1 + 2 * eta)).
    { apply Rle_trans with (v * (1 + eta)).
      - apply Rmult_le_compat_r; lra.
      - apply Rmult_le_compat_l; lra. }
    split; lra.
Qed.

Lemma shl_align_snd (mx : positive) (ex ez : Z) :
  (ez <= ex)%Z -> snd (shl_align mx ex ez) = ez.
Proof. intro H. unfold shl_align. destruct (ez - ex)%Z eqn:E; cbn [snd]; lia. Qed.

(** Conversion of a positive integer of at most 53 bits. *)
Lemma binary_normalize_NP (z k : Z) :
  (1 <= z < 2 ^ k)%Z -> (k <= 53)%Z ->
  exists v,
    NP (-52) (k - 52) (binary_normalize 53 1024 z 0 false) v
    /\ IZR z * (1 - / 4503599627370496) <= v
       <= IZR z * (1 + / 4503599627370496).
Proof.
  intros Hz Hk. destruct z as [|p|p]; try lia.
  assert (Hk0 : (0 <= k)%Z).
  { destruct (Z.lt_ge_cases k 0) as [N|N]; [|lia].
    rewrite Z.pow_neg_r in Hz by lia. lia. }
  cbn [binary_normalize]. unfold binary_round.
  destruct (digits2_pos_bounds p) as [Dlo Dhi].
  pose proof (digits_le p k (proj2 Hz) Hk0) as Dk.
  set (d := Zpos (digits2_pos p)) in *.
  assert (Hd : (1 <= d)%Z) by (unfold d; lia).
  rewrite Z.add_0_r, fexp_normal by lia.
  pose proof (shl_align_value p 0 (d - 53) ltac:(lia)) as Hv.
  pose proof (shl_align_snd p 0 (d - 53) ltac:(lia)) as Hs.
  destruct (shl_align p 0 (d - 53)) as [mz ez]. cbn [fst snd] in Hv, Hs. subst ez.
  replace (0 - (d - 53))%Z with (53 - d)%Z in Hv by lia.
  assert (P52 : (2 ^ 52 = 2 ^ (d - 1) * 2 ^ (53 - d))%Z).
  { rewrite <- Z.pow_add_r by lia. f_equal. lia. }
  assert (P53 : (2 ^ 53 = 2 ^ d * 2 ^ (53 - d))%Z).
  { rewrite <- Z.pow_add_r by lia. f_equal. lia. }
  assert (Ppos : (0 < 2 ^ (53 - d))%Z) by (apply pow2_pos; lia).
  assert (Hmz : (2 ^ 52 <= Zpos mz < 2 ^ 53)%Z).
  { rewrite Hv, P52, P53. split.
    - apply Z.mul_le_mono_nonneg_r; lia.
    - apply Z.mul_lt_mono_pos_r; lia. }
  pose proof (digits2_pos_unique mz 53 Hmz ltac:(lia)) as Dz.
  destruct (binary_round_aux_value mz (d - 53) loc_Exact)
    as (m & e & E & Hm & He & Hval); try lia.
  rewrite Dz in He.
  assert (Ev : F2R (Zpos mz) (d - 53) = IZR (Zpos p)).
  { unfold F2R. rewrite Hv, mult_IZR, <- powerRZ_pow2 by lia.
    rewrite Rmult_assoc, <- powerRZ_2_add.
    replace (53 - d + (d - 53))%Z with 0%Z by lia. cbn [powerRZ]. ring. }
  rewrite Ev in Hval.
  exists (F2R (Zpos m) e). split; [|exact Hval].
  exists m, e. repeat split; try assumption; lia.
Qed.

(** ** Comparison of positive normal numbers *)

Lemma F2R_lt_man (mx my e : Z) : (mx < my)%Z -> F2R mx e < F2R my e.
Proof.
  intro H. unfold F2R. apply Rmult_lt_compat_r; [apply powerRZ_2_pos|].
  now apply IZR_lt.
Qed.

(** Of two normal numbers the one with the larger exponent is larger. *)
Lemma F2R_lt_exp (mx my ex ey : Z) :
  (2 ^ 52 <= mx < 2 ^ 53)%Z -> (2 ^ 52 <= my < 2 ^ 53)%Z -> (ey < ex)%Z ->
  F2R my ey < F2R mx ex.
Proof.
  intros Hx Hy H. rewrite (F2R_shift mx ex ey) by lia.
  unfold F2R. apply Rmult_lt_compat_r; [apply powerRZ_2_pos|].
  apply IZR_lt.
  assert (2 ^ 1 <= 2 ^ (ex - ey))%Z by (apply Z.pow_le_mono_r; lia).
  change (2 ^ 1)%Z with 2%Z in *.
  change (2 ^ 53)%Z with 9007199254740992%Z in *.
  change (2 ^ 52)%Z with 4503599627370496%Z in *. nia.
Qed.

(** [SFcompare] orders positive normal numbers as their values. *)
Lemma SFcompare_NP (l1 h1 l2 h2 : Z) (x y : spec_float) (vx vy : R) :
  NP l1 h1 x vx -> NP l2 h2 y vy ->
  SFcompare x y
  = Some (if Rlt_dec vx vy then Lt else if Rlt_dec vy vx then Gt else Eq).
Proof.
  intros (mx & ex & -> & Hmx & Hex & ->) (my & ey & -> & Hmy & Hey & ->).
  cbn [SFcompare]. f_equal.
  destruct (Z.compare_spec ex ey) as [E|L|G].
  - subst ey. change (Pos.compare_cont Eq mx my) with (Pos.compare mx my).
    destruct (Pos.compare_spec mx my) as [E|L|G].
    + subst my. destruct (Rlt_dec _ _) as [A|_]; [exfalso; lra|reflexivity].
    + pose proof (F2R_lt_man (Zpos mx) (Zpos my) ex ltac:(lia)).
      destruct (Rlt_dec _ _); [reflexivity|lra].
    + pose proof (F2R_lt_man (Zpos my) (Zpos mx) ex ltac:(lia)).
      destruct (Rlt_dec _ _); [lra|]. destruct (Rlt_dec _ _); [reflexivity|lra].
  - pose proof (F2R_lt_exp (Zpos my) (Zpos mx) ey ex Hmy Hmx L).
    destruct (Rlt_dec _ _); [reflexivity|lra].
  - pose proof (F2R_lt_exp (Zpos mx) (Zpos my) ex ey Hmx Hmy G).
    destruct (Rlt_dec _ _); [lra|]. destruct (Rlt_dec _ _); [reflexivity|lra].
Qed.

Lemma SFltb_NP (l1 h1 l2 h2 : Z) (x y : spec_float) (vx vy : R) :
  NP l1 h1 x vx -> NP l2 h2 y vy -> vx < vy -> SFltb x y = true.
Proof.
  intros Hx Hy H. unfold SFltb. rewrite (SFcompare_NP _ _ _ _ _ _ _ _ Hx Hy).
  destruct (Rlt_dec vx vy); [reflexivity|lra].
Qed.

Lemma SFleb_NP (l1 h1 l2 h2 : Z) (x y : spec_float) (vx vy : R) :
  NP l1 h1 x vx -> NP l2 h2 y vy -> vx <= vy -> SFleb x y = true.
Proof.
  intros Hx Hy H. unfold SFleb. rewrite (SFcompare_NP _ _ _ _ _ _ _ _ Hx Hy).
  destruct (Rlt_dec vx vy); [reflexivity|].
  destruct (Rlt_dec vy vx); [lra|reflexivity].
Qed.

Lemma SFleb_NP_false (l1 h1 l2 h2 : Z) (x y : spec_float) (vx vy : R) :
  NP l1 h1 x vx -> NP l2 h2 y vy -> vy < vx -> SFleb x y = false.
Proof.
  intros Hx Hy H. unfold SFleb. rewrite (SFcompare_NP _ _ _ _ _ _ _ _ Hx Hy).
  destruct (Rlt_dec vx vy); [lra|].
  destruct (Rlt_dec vy vx); [reflexivity|lra].
Qed.

(** ** Constants *)

Lemma NP_const_neg (x : spec_float) (m : positive) (e : Z) (v : R) :
  x = S754_finite false m e -> (2 ^ 52 <= Zpos m < 2 ^ 53)%Z -> (e <= 0)%Z ->
  v * IZR (2 ^ (- e)) = IZR (Zpos m) -> NP e e x v.
Proof.
  intros -> Hm He Hv. exists m, e. repeat split; try lia.
  unfold F2R. rewrite <- Hv, Rmult_assoc, <- powerRZ_pow2 by lia.
  rewrite <- powerRZ_2_add. replace (- e + e)%Z with 0%Z by lia.
  cbn [powerRZ]. ring.
Qed.

Lemma NP_const_pos (x : spec_float) (m : positive) (e : Z) (v : R) :
  x = S754_finite false m e -> (2 ^ 52 <= Zpos m < 2 ^ 53)%Z -> (0 <= e)%Z ->
  v = IZR (Zpos m * 2 ^ e) -> NP e e x v.
Proof.
  intros -> Hm He ->. exists m, e. repeat split; try lia.
  unfold F2R. rewrite mult_IZR, powerRZ_pow2 by lia. reflexivity.
Qed.

(** ** The libstdc++ engine and distribution *)

(** [double(z)] for an unsigned [z] below 2^31. *)
Lemma to_double_spec (z : Z) :
  (0 <= z < 2 ^ 31)%Z ->
  Prim2SF (Libstdcxx.to_double z) = binary_normalize 53 1024 z 0 false.
Proof.
  intro H. unfold Libstdcxx.to_double. rewrite of_uint63_spec, Uint63.of_Z_spec.
  rewrite Z.mod_small; [reflexivity|].
  change wB with (2 ^ 63)%Z. change (2 ^ 63)%Z with 9223372036854775808%Z.
  change (2 ^ 31)%Z with 2147483648%Z in H. lia.
Qed.

(** The three constants of [generate_canonical]. *)
Lemma range_NP : NP (-22) (-22) (Prim2SF Libstdcxx.range) 2147483646.
Proof.
  apply (NP_const_neg _ 9007199246352384); [vm_compute; reflexivity|lia|lia|].
  change (2 ^ (- -22))%Z with 4194304%Z. lra.
Qed.

Lemma tmp_NP :
  NP 9 9 (Prim2SF (PrimFloat.mul Libstdcxx.range Libstdcxx.range)) 4611686009837453312.
Proof.
  apply (NP_const_pos _ 9007199237963776); [vm_compute; reflexivity|lia|lia|].
  reflexivity.
Qed.

Lemma one_NP : NP (-52) (-52) (Prim2SF 1%float) 1.
Proof.
  apply (NP_const_neg _ 4503599627370496); [vm_compute; reflexivity|lia|lia|].
  change (2 ^ (- -52))%Z with 4503599627370496%Z. lra.
Qed.

(** The canonical value [(a1 + a2 * R) / (R * R)] of two draws
    [1 <= a1 <= R - 1] and [1 <= a2 <= R - 2] is a normal number between
    4e-10 and 1 - 4e-10. *)
Lemma canonical_NP (a1 a2 : Z) :
  (1 <= a1 <= 2147483645)%Z -> (1 <= a2 <= 2147483644)%Z ->
  exists v,
    NP (-84) (-47)
       (Prim2SF (PrimFloat.div
                   (PrimFloat.add (Libstdcxx.to_double a1)
                                  (PrimFloat.mul (Libstdcxx.to_double a2) Libstdcxx.range))
                   (PrimFloat.mul Libstdcxx.range Libstdcxx.range))) v
    /\ 4 / 10000000000 <= v <= 1 - 4 / 10000000000.
Proof.
  intros H1 H2.
  pose proof tmp_NP as NT. pose proof range_NP as NR.
  set (tmp := PrimFloat.mul Libstdcxx.range Libstdcxx.range) in *.
  set (rg := Libstdcxx.range) in *.
  rewrite FloatAxioms.div_spec, FloatAxioms.add_spec, FloatAxioms.mul_spec.
  rewrite !to_double_spec by (change (2 ^ 31)%Z with 2147483648%Z; lia).
  unfold SF64div, SF64add, SF64mul, prec, emax.
  destruct (binary_normalize_NP a1 31) as (v1 & N1 & B1);
    [change (2 ^ 31)%Z with 2147483648%Z; lia|lia|].
  destruct (binary_normalize_NP a2 31) as (v2 & N2 & B2);
    [change (2 ^ 31)%Z with 2147483648%Z; lia|lia|].
  destruct (SFmul_NP _ _ _ _ _ _ _ _ N2 NR) as (vp & Np & Bp); [lia|lia|].
  destruct (SFadd_NP _ _ _ _ _ _ _ _ N1 Np) as (vs & Ns & Bs); [lia|lia|lia|lia|].
  destruct (SFdiv_NP _ _ _ _ _ _ _ _ Ns NT) as (vr & Nr & Br); [lia|lia|].
  exists vr. split; [apply (NP_weaken _ _ _ _ _ _ Nr); lia|].
  assert (A1 : 1 <= IZR a1 <= 2147483645) by (split; apply IZR_le; lia).
  assert (A2 : 1 <= IZR a2 <= 2147483644) by (split; apply IZR_le; lia).
  split; lra.
Qed.

(** Such a canonical value is mapped into [20.0, 30.0) and [0.9, 1.1). *)
Lemma affine_temperature (u : float) (vu : R) :
  NP (-84) (-47) (Prim2SF u) vu ->
  4 / 10000000000 <= vu <= 1 - 4 / 10000000000 ->
  let v := PrimFloat.add (PrimFloat.mul u (PrimFloat.sub 30.0%float 20.0%float)) 20.0%float in
  PrimFloat.leb 20.0%float v = true /\ PrimFloat.ltb v 30.0%float = true.
Proof.
  intros Nu Bu v. subst v.
  assert (Na : NP (-48) (-48) (Prim2SF 20.0%float) 20).
  { apply (NP_const_neg _ 5629499534213120); [vm_compute; reflexivity|lia|lia|].
    change (2 ^ (- -48))%Z with 281474976710656%Z. lra. }
  assert (Nb : NP (-48) (-48) (Prim2SF 30.0%float) 30).
  { apply (NP_const_neg _ 8444249301319680); [vm_compute; reflexivity|lia|lia|].
    change (2 ^ (- -48))%Z with 281474976710656%Z. lra. }
  assert (Nc : NP (-49) (-49) (Prim2SF (PrimFloat.sub 30.0%float 20.0%float)) 10).
  { apply (NP_const_neg _ 5629499534213120); [vm_compute; reflexivity|lia|lia|].
    change (2 ^ (- -49))%Z with 562949953421312%Z. lra. }
  set (a := 20.0%float) in *. set (b := 30.0%float) in *.
  set (c := PrimFloat.sub b a) in *.
  rewrite FloatAxioms.leb_spec, FloatAxioms.ltb_spec.
  rewrite FloatAxioms.add_spec, FloatAxioms.mul_spec.
  unfold SF64add, SF64mul, prec, emax.
  destruct (SFmul_NP _ _ _ _ _ _ _ _ Nu Nc) as (vq & Nq & Bq); [lia|lia|].
  destruct (SFadd_NP _ _ _ _ _ _ _ _ Nq Na) as (vr & Nr & Br); [lia|lia|lia|lia|].
  split.
  - apply (SFleb_NP _ _ _ _ _ _ _ _ Na Nr). lra.
  - apply (SFltb_NP _ _ _ _ _ _ _ _ Nr Nb). lra.
Qed.

Lemma affine_pressure (u : float) (vu : R) :
  NP (-84) (-47) (Prim2SF u) vu ->
  4 / 10000000000 <= vu <= 1 - 4 / 10000000000 ->
  let v := PrimFloat.add (PrimFloat.mul u (PrimFloat.sub 1.1%float 0.9%float)) 0.9%float in
  PrimFloat.leb 0.9%float v = true /\ PrimFloat.ltb v 1.1%float = true.
Proof.
  intros Nu Bu v. subst v.
  assert (Na : NP (-53) (-53) (Prim2SF 0.9%float)
                  (8106479329266893 / 9007199254740992)).
  { apply (NP_const_neg _ 8106479329266893); [vm_compute; reflexivity|lia|lia|].
    change (2 ^ (- -53))%Z with 9007199254740992%Z. lra. }
  assert (Nb : NP (-52) (-52) (Prim2SF 1.1%float)
                  (4953959590107546 / 4503599627370496)).
  { apply (NP_const_neg _ 4953959590107546); [vm_compute; reflexivity|lia|lia|].
    change (2 ^ (- -52))%Z with 4503599627370496%Z. lra. }
  assert (Nc : NP (-55) (-55) (Prim2SF (PrimFloat.sub 1.1%float 0.9%float))
                  (7205759403792796 / 36028797018963968)).
  { apply (NP_const_neg _ 7205759403792796); [vm_compute; reflexivity|lia|lia|].
    change (2 ^ (- -55))%Z with 36028797018963968%Z. lra. }
  set (a := 0.9%float) in *. set (b := 1.1%float) in *.
  set (c := PrimFloat.sub b a) in *.
  rewrite FloatAxioms.leb_spec, FloatAxioms.ltb_spec.
  rewrite FloatAxioms.add_spec, FloatAxioms.mul_spec.
  unfold SF64add, SF64mul, prec, emax.
  destruct (SFmul_NP _ _ _ _ _ _ _ _ Nu Nc) as (vq & Nq & Bq); [lia|lia|].
  destruct (SFadd_NP _ _ _ _ _ _ _ _ Nq Na) as (vr & Nr & Br); [lia|lia|lia|lia|].
  split.
  - apply (SFleb_NP _ _ _ _ _ _ _ _ Na Nr). lra.
  - apply (SFltb_NP _ _ _ _ _ _ _ _ Nr Nb). lra.
Qed.

(** ** The engine *)

(** 1407677000 is the inverse of 16807 modulo 2^31 - 1: a step of the engine
    is undone by multiplying with it, so the step is injective and never
    yields 0 from a state other than 0. *)
Lemma minstd_rand0_next_inverse (x : Z) :
  (0 <= x < Libstdcxx.modulus)%Z -> ((1407677000 * Libstdcxx.minstd_rand0_next x) mod Libstdcxx.modulus = x)%Z.
Proof.
  intro H. unfold Libstdcxx.minstd_rand0_next.
  rewrite Z.mul_mod_idemp_r by (unfold Libstdcxx.modulus; lia).
  rewrite Z.mul_assoc, <- Z.mul_mod_idemp_l by (unfold Libstdcxx.modulus; lia).
  change ((1407677000 * 16807) mod Libstdcxx.modulus)%Z with 1%Z.
  rewrite Z.mul_1_l. now apply Z.mod_small.
Qed.

Lemma minstd_rand0_next_valid (g : Z) :
  Libstdcxx.valid_engine g -> Libstdcxx.valid_engine (Libstdcxx.minstd_rand0_next g).
Proof.
  intro H. unfold Libstdcxx.valid_engine in *.
  pose proof (minstd_rand0_next_inverse g ltac:(lia)) as I.
  assert (B : (0 <= Libstdcxx.minstd_rand0_next g < Libstdcxx.modulus)%Z)
    by (apply Z.mod_pos_bound; unfold Libstdcxx.modulus; lia).
  destruct (Z.eq_dec (Libstdcxx.minstd_rand0_next g) 0) as [E|E]; [|lia].
  rewrite E in I. vm_compute in I. lia.
Qed.

Lemma uniform_real_unfold (a b : float) (g : Z) :
  Libstdcxx.uniform_real a b g
  = (Libstdcxx.affine a b (Libstdcxx.canonical_of (Libstdcxx.minstd_rand0_next g)),
     Libstdcxx.minstd_rand0_next (Libstdcxx.minstd_rand0_next g)).
Proof. reflexivity. Qed.

(** Apart from the states whose draws are 1 or 2^31 - 2, the canonical value
    is the quotient itself and [canonical_NP] applies. *)
Lemma canonical_of_general (g1 : Z) :
  Libstdcxx.valid_engine g1 -> g1 <> 1%Z ->
  Libstdcxx.minstd_rand0_next g1 <> 1%Z -> Libstdcxx.minstd_rand0_next g1 <> (Libstdcxx.modulus - 1)%Z ->
  exists v,
    NP (-84) (-47) (Prim2SF (Libstdcxx.canonical_of g1)) v
    /\ 4 / 10000000000 <= v <= 1 - 4 / 10000000000.
Proof.
  intros V1 D1 D2 D3.
  pose proof (minstd_rand0_next_valid g1 V1) as V2.
  unfold Libstdcxx.valid_engine, Libstdcxx.modulus in *.
  destruct (canonical_NP (g1 - 1) (Libstdcxx.minstd_rand0_next g1 - 1)) as (v & N & B);
    [lia|lia|].
  exists v. split; [|exact B].
  unfold Libstdcxx.canonical_of. cbv zeta.
  rewrite FloatAxioms.leb_spec.
  rewrite (SFleb_NP_false _ _ _ _ _ _ _ _ one_NP N) by lra.
  exact N.
Qed.

(** The three remaining states are decided by evaluation. *)
Lemma uniform_real_within (a b : float) :
  (forall u vu, NP (-84) (-47) (Prim2SF u) vu ->
     4 / 10000000000 <= vu <= 1 - 4 / 10000000000 ->
     Libstdcxx.within a b (Libstdcxx.affine a b u) = true) ->
  Libstdcxx.within a b (Libstdcxx.affine a b (Libstdcxx.canonical_of 1)) = true ->
  Libstdcxx.within a b (Libstdcxx.affine a b (Libstdcxx.canonical_of 1407677000)) = true ->
  Libstdcxx.within a b (Libstdcxx.affine a b (Libstdcxx.canonical_of 739806647)) = true ->
  forall g, Libstdcxx.valid_engine g ->
    Libstdcxx.within a b (fst (Libstdcxx.uniform_real a b g)) = true
    /\ Libstdcxx.valid_engine (snd (Libstdcxx.uniform_real a b g)).
Proof.
  intros Hgen S1 S2 S3 g V.
  rewrite uniform_real_unfold. cbn [fst snd].
  pose proof (minstd_rand0_next_valid g V) as V1.
  pose proof (minstd_rand0_next_valid _ V1) as V2.
  split; [|exact V2].
  set (g1 := Libstdcxx.minstd_rand0_next g) in *.
  pose proof (minstd_rand0_next_inverse g1 ltac:(unfold Libstdcxx.valid_engine in V1; lia)) as I.
  destruct (Z.eq_dec g1 1) as [E|D1]; [rewrite E; exact S1|].
  destruct (Z.eq_dec (Libstdcxx.minstd_rand0_next g1) 1) as [E|D2].
  { rewrite E in I. change ((1407677000 * 1) mod Libstdcxx.modulus)%Z with 1407677000%Z in I.
    rewrite <- I. exact S2. }
  destruct (Z.eq_dec (Libstdcxx.minstd_rand0_next g1) (Libstdcxx.modulus - 1)) as [E|D3].
  { rewrite E in I.
    change ((1407677000 * (Libstdcxx.modulus - 1)) mod Libstdcxx.modulus)%Z with 739806647%Z in I.
    rewrite <- I. exact S3. }
  destruct (canonical_of_general g1 V1 D1 D2 D3) as (v & N & B).
  exact (Hgen _ _ N B).
Qed.

Lemma within_temperature (g : Z) :
  Libstdcxx.valid_engine g ->
  Libstdcxx.within 20.0%float 30.0%float (fst (Libstdcxx.uniform_real 20.0%float 30.0%float g)) = true
  /\ Libstdcxx.valid_engine (snd (Libstdcxx.uniform_real 20.0%float 30.0%float g)).
Proof.
  apply uniform_real_within; [|vm_compute; reflexivity ..].
  intros u vu N B. unfold Libstdcxx.within, Libstdcxx.affine.
  destruct (affine_temperature u vu N B) as [-> ->]. reflexivity.
Qed.

Lemma within_pressure (g : Z) :
  Libstdcxx.valid_engine g ->
  Libstdcxx.within 0.9%float 1.1%float (fst (Libstdcxx.uniform_real 0.9%float 1.1%float g)) = true
  /\ Libstdcxx.valid_engine (snd (Libstdcxx.uniform_real 0.9%float 1.1%float g)).
Proof.
  apply uniform_real_within; [|vm_compute; reflexivity ..].
  intros u vu N B. unfold Libstdcxx.within, Libstdcxx.affine.
  destruct (affine_pressure u vu N B) as [-> ->]. reflexivity.
Qed.

End Binary64.

Section ReadingsInRange.

#[local] Existing Instance Libstdcxx.platform.

(** What [readValue] leaves behind: the value drawn, the engine of its own
    class stepped, the other engine untouched. *)
Lemma readValue_draw_engine (s : Sensor) (w : World) :
  fst (readValue s w) = fst (draw s w)
  /\ gen_of s (snd (readValue s w)) = Some (snd (draw s w))
  /\ (forall s', s' <> s -> gen_of s' (snd (readValue s w)) = gen_of s' w).
Proof.
  destruct w as [tg pg ck cr lf co rd].
  destruct s; unfold readValue, draw, bind, ret, note_read,
    TemperatureSensor_readValue, PressureSensor_readValue;
    cbn [gen_of bounds fst snd temp_gen pres_gen reads];
    match goal with
    | |- context [uniform_real_distribution ?a ?b ?g] =>
        destruct (uniform_real_distribution a b g) as [v g']
    end;
    cbn [gen_of fst snd set_reads set_temp_gen set_pres_gen temp_gen pres_gen];
    (split; [reflexivity|split; [reflexivity|]]);
    intros [] D;
    cbn [gen_of temp_gen pres_gen set_reads set_temp_gen set_pres_gen];
    congruence.
Qed.

Lemma draw_within (s : Sensor) (g : Z) :
  Libstdcxx.valid_engine g ->
  Demo.in_bounds
    (s, fst (Libstdcxx.uniform_real (fst (bounds s)) (snd (bounds s)) g)) = true
  /\ Libstdcxx.valid_engine
       (snd (Libstdcxx.uniform_real (fst (bounds s)) (snd (bounds s)) g)).
Proof.
  intro V. unfold Demo.in_bounds.
  destruct s; cbn [bounds fst snd].
  - exact (within_temperature g V).
  - exact (within_pressure g V).
Qed.

Lemma readValue_step_within (s : Sensor) (w : World) :
  Libstdcxx.valid_world w ->
  Demo.in_bounds (s, fst (readValue s w)) = true
  /\ Libstdcxx.valid_world (snd (readValue s w)).
Proof.
  intro V.
  destruct (readValue_draw_engine s w) as (E1 & E2 & E3).
  destruct (draw_within s (static_engine (gen_of s w)) (V s)) as [B G].
  rewrite E1. split; [exact B|].
  intro s'. destruct (Sensor_eq_dec s' s) as [->|D].
  - rewrite E2. exact G.
  - rewrite (E3 s' D). exact (V s').
Qed.

Lemma read_each_within (calls : list Sensor) (w : World) :
  Libstdcxx.valid_world w ->
  List.length (fst (read_each calls w)) = List.length calls
  /\ forallb Demo.in_bounds (combine calls (fst (read_each calls w))) = true
  /\ Libstdcxx.valid_world (snd (read_each calls w)).
Proof.
  revert w. induction calls as [|s rest IH]; intros w V.
  - cbn [read_each ret fst snd List.length combine forallb].
    split; [reflexivity|split; [reflexivity|exact V]].
  - cbn [read_each]. unfold bind, ret.
    destruct (readValue_step_within s w V) as [B V1].
    destruct (readValue s w) as [v w1]. cbn [fst snd] in B, V1.
    destruct (IH w1 V1) as (L & F & V2).
    destruct (read_each rest w1) as [vs w2]. cbn [fst snd] in L, F, V2 |- *.
    cbn [List.length combine forallb]. rewrite L, B, F.
    split; [reflexivity|split; [reflexivity|exact V2]].
Qed.

(** C5: on libstdc++, from every state the two engines can hold,
    [TemperatureSensor::readValue()] returns a value in [20.0, 30.0) and
    [PressureSensor::readValue()] a value in [0.9, 1.1), and leaves the
    engines in such states again; so every reading of any number of
    repeated calls, in any order of the two classes, lies in the interval
    of its class. *)
Theorem readValue_within_bounds (w : World) :
  Libstdcxx.valid_world w ->
  (PrimFloat.leb 20.0 (fst (TemperatureSensor_readValue w)) = true
   /\ PrimFloat.ltb (fst (TemperatureSensor_readValue w)) 30.0 = true)
  /\ (PrimFloat.leb 0.9 (fst (PressureSensor_readValue w)) = true
      /\ PrimFloat.ltb (fst (PressureSensor_readValue w)) 1.1 = true)
  /\ (forall s : Sensor, Libstdcxx.valid_world (snd (readValue s w)))
  /\ (forall calls : list Sensor,
        List.length (fst (read_each calls w)) = List.length calls
        /\ forallb Demo.in_bounds (combine calls (fst (read_each calls w)))
           = true
        /\ Libstdcxx.valid_world (snd (read_each calls w))).
Proof.
  intro V.
  assert (T := proj1 (readValue_step_within TemperatureSensor w V)).
  assert (Q := proj1 (readValue_step_within PressureSensor w V)).
  unfold Demo.in_bounds in T, Q. cbn [bounds fst snd] in T, Q.
  apply andb_prop in T. apply andb_prop in Q.
  assert (ET : fst (readValue TemperatureSensor w)
               = fst (TemperatureSensor_readValue w)).
  { unfold readValue, bind, ret, note_read.
    destruct (TemperatureSensor_readValue w). reflexivity. }
  assert (EQ : fst (readValue PressureSensor w)
               = fst (PressureSensor_readValue w)).
  { unfold readValue, bind, ret, note_read.
    destruct (PressureSensor_readValue w). reflexivity. }
  rewrite ET in T. rewrite EQ in Q.
  split; [exact T|]. split; [exact Q|]. split.
  - intro s. exact (proj2 (readValue_step_within s w V)).
  - intro calls. exact (read_each_within calls w V).
Qed.

End ReadingsInRange.


(** * Concrete cases of the properties that have a premise *)

Section OnLibstdcxx.

#[local] Existing Instance Libstdcxx.platform.

Lemma readAll_getSensorTypes_positional_witness :
  @run Libstdcxx.platform Demo.session (SensorManager_new, start Libstdcxx.noon)
  = (fst Demo.after_session, snd Demo.after_session)
  /\ nth_error (added_by Demo.session) 1 = Some PressureSensor
  /\ (sensors (fst Demo.after_session) = added_by Demo.session
      /\ nth_error (getSensorTypes (fst Demo.after_session)) 1
         = Some (getType PressureSensor)
      /\ nth_error (fst (readAll (fst Demo.after_session) (snd Demo.after_session))) 1
         = Some (fst (readValue PressureSensor
                        (snd (read_each (firstn 1 (sensors (fst Demo.after_session)))
                                        (snd Demo.after_session)))))).
Proof.
  split; [reflexivity|]. split; [reflexivity|].
  apply (@readAll_getSensorTypes_positional Libstdcxx.platform Demo.session
           (start Libstdcxx.noon) (snd Demo.after_session) (fst Demo.after_session)
           1 PressureSensor); reflexivity.
Defined.


Lemma readValue_deterministic_witness :
  gen_of TemperatureSensor Demo.world_a = gen_of TemperatureSensor Demo.world_b
  /\ fst (readValue TemperatureSensor Demo.world_a)
     = fst (readValue TemperatureSensor Demo.world_b)
  /\ gen_of TemperatureSensor (snd (readValue TemperatureSensor Demo.world_a))
     = gen_of TemperatureSensor (snd (readValue TemperatureSensor Demo.world_b)).
Proof.
  split; [reflexivity|].
  exact (proj1 (@readValue_deterministic Libstdcxx.platform)
               TemperatureSensor Demo.world_a Demo.world_b eq_refl).
Defined.

Lemma getTimestamp_injective_witness :
  valid_tm (clock (start Libstdcxx.noon) (clock_reads (start Libstdcxx.noon)))
  /\ valid_tm (clock (set_clock_reads 3600 (start Libstdcxx.noon))
               (clock_reads (set_clock_reads 3600 (start Libstdcxx.noon))))
  /\ fst (getTimestamp (start Libstdcxx.noon))
     = fst (getTimestamp (set_clock_reads 3600 (start Libstdcxx.noon)))
  /\ clock (start Libstdcxx.noon) (clock_reads (start Libstdcxx.noon))
     = clock (set_clock_reads 3600 (start Libstdcxx.noon))
             (clock_reads (set_clock_reads 3600 (start Libstdcxx.noon))).
Proof.
  assert (V1 : valid_tm (clock (start Libstdcxx.noon)
                               (clock_reads (start Libstdcxx.noon))))
    by (unfold valid_tm; simpl; lia).
  assert (V2 : valid_tm (clock (set_clock_reads 3600 (start Libstdcxx.noon))
                    (clock_reads (set_clock_reads 3600 (start Libstdcxx.noon)))))
    by (unfold valid_tm; vm_compute; lia).
  split; [exact V1|]. split; [exact V2|]. split; [vm_compute; reflexivity|].
  apply (@getTimestamp_injective Libstdcxx.platform (start Libstdcxx.noon)
           (set_clock_reads 3600 (start Libstdcxx.noon)) V1 V2).
  vm_compute. reflexivity.
Defined.



Lemma console_reads_back_witness :
  (forall x : double, plain (@fixed2 Libstdcxx.platform x) = true)
  /\ (cout_done = (closing_message ++ nl)%string
      /\ split nl_char (cout (snd (main (start Libstdcxx.noon))))
         = ("Logging sensor data to sensor_data.csv ..."
            :: map (fun r => console_line (console_stamp r)
                               ["Temperature"; "Pressure"] (readings r))
                   (samples_from main_manager totalSamples 0.0%float
                                 (start Libstdcxx.noon))
            ++ [closing_message; EmptyString])%list
      /\ List.length
           ("Logging sensor data to sensor_data.csv ..."
            :: map (fun r => console_line (console_stamp r)
                               ["Temperature"; "Pressure"] (readings r))
                   (samples_from main_manager totalSamples 0.0%float
                                 (start Libstdcxx.noon))
            ++ [closing_message])%list = 22).
Proof.
  split.
  - exact libstdcxx_fixed2_plain.
  - exact (@console_reads_back Libstdcxx.platform libstdcxx_fixed2_plain
             Libstdcxx.noon).
Defined.

Lemma noon_valid (k : nat) : valid_tm (Libstdcxx.noon k).
Proof.
  unfold valid_tm, Libstdcxx.noon. cbn [tm_hour tm_min tm_sec].
  pose proof (Nat.mod_upper_bound (k / 60) 60).
  pose proof (Nat.mod_upper_bound k 60). lia.
Qed.

(** The first console line of a run at noon, and the line the
    specification's wording gives for the same timestamp, labels and
    readings: the code separates with a space after the bracket and after
    each colon. *)
Lemma console_line_not_as_worded :
  cout (snd (sample main_manager 0.0%float (start Libstdcxx.noon)))
  = ("[12:00:01] Temperature: 21.32  Pressure: 0.93  " ++ nl)%string
  /\ (worded_console_line
        (HH_MM_SS (Libstdcxx.noon 1))
        (combine (getSensorTypes main_manager)
                 (map fixed2 (fst (readAll main_manager (start Libstdcxx.noon)))))
      ++ nl)%string
     = ("[12:00:01]Temperature:21.32  Pressure:0.93  " ++ nl)%string
  /\ cout (snd (sample main_manager 0.0%float (start Libstdcxx.noon)))
     <> (worded_console_line
           (HH_MM_SS (Libstdcxx.noon 1))
           (combine (getSensorTypes main_manager)
                    (map fixed2 (fst (readAll main_manager (start Libstdcxx.noon)))))
         ++ nl)%string.
Proof.
  split; [vm_compute; reflexivity|]. split; [vm_compute; reflexivity|].
  apply String.eqb_neq. vm_compute. reflexivity.
Qed.

Lemma console_line_per_sample_witness :
  valid_tm (clock (start Libstdcxx.noon) (S (clock_reads (start Libstdcxx.noon))))
  /\ (forall k, valid_tm (Libstdcxx.noon k))
  /\ (cout (snd (sample main_manager 0.0%float (start Libstdcxx.noon)))
      = (cout (start Libstdcxx.noon)
         ++ ("[" ++ HH_MM_SS (clock (start Libstdcxx.noon)
                                    (S (clock_reads (start Libstdcxx.noon))))
             ++ "] "
             ++ flatten (map (fun sv => getType (fst sv) ++ ": "
                                        ++ fixed2 (snd sv) ++ "  ")
                             (combine (sensors main_manager)
                                (fst (readAll main_manager (start Libstdcxx.noon))))))
         ++ nl)%string
      /\ let w' := snd (main (start Libstdcxx.noon)) in
         cout w'
         = (cout_banner
            ++ flatten
                 (map (fun i =>
                         "[" ++ HH_MM_SS (Libstdcxx.noon (2 * i + 1)) ++ "] "
                         ++ "Temperature" ++ ": "
                         ++ fixed2 (reading_at w' (2 * i)) ++ "  "
                         ++ "Pressure" ++ ": "
                         ++ fixed2 (reading_at w' (2 * i + 1)) ++ "  "
                         ++ nl)
                      (seq 0 20))
            ++ cout_done)%string
         /\ map fst (reads w')
            = List.concat (repeat [TemperatureSensor; PressureSensor] 20)).
Proof.
  split; [apply noon_valid|]. split; [exact noon_valid|].
  exact (@console_line_per_sample Libstdcxx.platform main_manager 0.0%float
           (start Libstdcxx.noon) Libstdcxx.noon (noon_valid 1) noon_valid).
Defined.

Lemma logfile_header_and_rows_witness :
  (forall x : double, plain (@fixed2 Libstdcxx.platform x) = true)
  /\ (forall k, valid_tm (Libstdcxx.noon k))
  /\ (let w' := snd (main (set_logfile "old line" (start Libstdcxx.noon))) in
      let row i :=
        (fixed2 (whole_seconds i) ++ "," ++ HH_MM_SS (Libstdcxx.noon (2 * i))
         ++ "," ++ fixed2 (reading_at w' (2 * i))
         ++ "," ++ fixed2 (reading_at w' (2 * i + 1)))%string in
      split nl_char (logfile w')
      = ("Time(s),Timestamp,Temperature(C),Pressure(bar)"
         :: map row (seq 0 20) ++ [EmptyString])%list
      /\ List.length ("Time(s),Timestamp,Temperature(C),Pressure(bar)"
                      :: map row (seq 0 20)) = 21
      /\ map (split comma_char) (map row (seq 0 20))
         = map (fun i => [fixed2 (whole_seconds i);
                          HH_MM_SS (Libstdcxx.noon (2 * i));
                          fixed2 (reading_at w' (2 * i));
                          fixed2 (reading_at w' (2 * i + 1))])
               (seq 0 20)
      /\ map fst (reads w')
         = List.concat (repeat [TemperatureSensor; PressureSensor] 20)).
Proof.
  split; [exact libstdcxx_fixed2_plain|]. split; [exact noon_valid|].
  exact (@logfile_header_and_rows Libstdcxx.platform libstdcxx_fixed2_plain
           Libstdcxx.noon "old line" noon_valid).
Defined.

Lemma main_elapsed_exact_witness :
  (forall x : double, plain (@fixed2 Libstdcxx.platform x) = true)
  /\ 19 < totalSamples
  /\ exists line,
       nth_error (split nl_char (logfile (snd (main (start Libstdcxx.noon))))) 20
       = Some line
       /\ hd_error (split comma_char line) = Some (fixed2 (whole_seconds 19)).
Proof.
  assert (H : 19 < totalSamples) by (unfold totalSamples; lia).
  split; [exact libstdcxx_fixed2_plain|]. split; [exact H|].
  exact (@main_elapsed_exact Libstdcxx.platform libstdcxx_fixed2_plain
           Libstdcxx.noon 19 H).
Defined.

Lemma sample_stamps_witness :
  valid_tm (clock (start Libstdcxx.noon) (clock_reads (start Libstdcxx.noon)))
  /\ valid_tm (clock (start Libstdcxx.noon)
                     (S (clock_reads (start Libstdcxx.noon))))
  /\ (logfile (snd (sample main_manager 0.0%float (start Libstdcxx.noon)))
      = (logfile (start Libstdcxx.noon)
         ++ (fixed2 0.0%float ++ ","
             ++ HH_MM_SS (clock (start Libstdcxx.noon)
                                (clock_reads (start Libstdcxx.noon)))
             ++ flatten (map (fun v => "," ++ fixed2 v)
                             (fst (readAll main_manager (start Libstdcxx.noon)))))
         ++ nl)%string
      /\ cout (snd (sample main_manager 0.0%float (start Libstdcxx.noon)))
         = (cout (start Libstdcxx.noon)
            ++ ("[" ++ HH_MM_SS (clock (start Libstdcxx.noon)
                                       (S (clock_reads (start Libstdcxx.noon))))
                ++ "] "
                ++ flatten (map (fun lv => fst lv ++ ": " ++ fixed2 (snd lv) ++ "  ")
                                (combine (getSensorTypes main_manager)
                                   (fst (readAll main_manager
                                                 (start Libstdcxx.noon))))))
            ++ nl)%string
      /\ clock_reads (snd (sample main_manager 0.0%float (start Libstdcxx.noon)))
         = S (S (clock_reads (start Libstdcxx.noon)))
      /\ (HH_MM_SS (clock (start Libstdcxx.noon)
                          (clock_reads (start Libstdcxx.noon)))
          = HH_MM_SS (clock (start Libstdcxx.noon)
                            (S (clock_reads (start Libstdcxx.noon))))
          <-> clock (start Libstdcxx.noon) (clock_reads (start Libstdcxx.noon))
              = clock (start Libstdcxx.noon)
                      (S (clock_reads (start Libstdcxx.noon))))).
Proof.
  split; [apply noon_valid|]. split; [apply noon_valid|].
  exact (@sample_stamps Libstdcxx.platform main_manager 0.0%float
           (start Libstdcxx.noon) (noon_valid 0) (noon_valid 1)).
Defined.

Lemma readValue_within_bounds_witness :
  Libstdcxx.valid_world (start Libstdcxx.noon)
  /\ ((PrimFloat.leb 20.0
         (fst (TemperatureSensor_readValue (start Libstdcxx.noon))) = true
       /\ PrimFloat.ltb
            (fst (TemperatureSensor_readValue (start Libstdcxx.noon))) 30.0
          = true)
      /\ (PrimFloat.leb 0.9
            (fst (PressureSensor_readValue (start Libstdcxx.noon))) = true
          /\ PrimFloat.ltb
               (fst (PressureSensor_readValue (start Libstdcxx.noon))) 1.1
             = true)
      /\ (forall s : Sensor,
            Libstdcxx.valid_world (snd (readValue s (start Libstdcxx.noon))))
      /\ (forall calls : list Sensor,
            List.length (fst (read_each calls (start Libstdcxx.noon)))
            = List.length calls
            /\ forallb Demo.in_bounds
                 (combine calls (fst (read_each calls (start Libstdcxx.noon))))
               = true
            /\ Libstdcxx.valid_world
                 (snd (read_each calls (start Libstdcxx.noon))))).
Proof.
  assert (V : Libstdcxx.valid_world (start Libstdcxx.noon)).
  { intros []; cbn; unfold Libstdcxx.valid_engine, Libstdcxx.modulus; lia. }
  split; [exact V|].
  exact (readValue_within_bounds (start Libstdcxx.noon) V).
Defined.

End OnLibstdcxx.
